(** * Backyard flyer: the mission controller of [backyard_flyer.py]

    A shallow embedding of the [BackyardFlyer] class and the properties
    of its event handlers and transitions.

    Modelling conventions.
    - In the controller, numpy [float64] values are modelled by exact
      rationals ([Q]).  All literals of the program (3.0, 10.0, 0.25,
      0.1, 0.01, 1.0) are rationals, and the arithmetic the controller
      itself performs on its way through a mission (the box from (0,0,3)
      with size 10) is exact in float64.  For arbitrary arguments the
      sums and the difference of [calculate_box] round: that method is
      also embedded over IEEE binary64 ([calculate_box_float64]), and
      its general properties are stated there.
    - A numpy array of three floats is the record [Vec3]; [np.copy]
      followed by an indexed store is a functional update.  The arrays
      that the program mutates in place ([target_position] in
      [takeoff_transition], the fresh copies in [calculate_box] and
      [local_position_callback]) are never reachable through a second
      name when they are written, so value semantics loses nothing.
    - The attributes of the [Drone] base class that hold telemetry
      ([local_position], [local_velocity], [global_position],
      [global_home]) are read-only for this class: they form the record
      [Telemetry], handed to every handler as the snapshot current when
      the handler is invoked.
    - The methods of the base class that talk to the vehicle
      ([take_control], [arm], [cmd_position], ...) are recorded, in call
      order, as a list of [Command]s.
    - [print] calls only write to the console and are left out.
    - [list.pop(0)] raises [IndexError] on an empty list; handlers run in
      a monad that can raise it. *)

From Stdlib Require Import QArith Qabs Arith List Bool Lia Lqa.
From Stdlib Require Import PrimFloat.
Import ListNotations.

#[local] Set Warnings "-inexact-float".

Open Scope Q_scope.

(** ** Data *)

(** [class States(Enum)] *)
Inductive States : Type :=
| MANUAL | ARMING | TAKEOFF | WAYPOINT | LANDING | DISARMING.

Definition States_eqb (a b : States) : bool :=
  match a, b with
  | MANUAL, MANUAL | ARMING, ARMING | TAKEOFF, TAKEOFF
  | WAYPOINT, WAYPOINT | LANDING, LANDING | DISARMING, DISARMING => true
  | _, _ => false
  end.

(** A numpy array of shape (3,), indexed 0, 1, 2. *)
Record Vec3 : Type := mkVec3 { v0 : Q; v1 : Q; v2 : Q }.

Definition set0 (v : Vec3) (x : Q) : Vec3 := mkVec3 x (v1 v) (v2 v).
Definition set1 (v : Vec3) (x : Q) : Vec3 := mkVec3 (v0 v) x (v2 v).
Definition set2 (v : Vec3) (x : Q) : Vec3 := mkVec3 (v0 v) (v1 v) x.

(** Componentwise equality of the rationals held (as fractions). *)
Definition Vec3_equiv (a b : Vec3) : Prop :=
  v0 a == v0 b /\ v1 a == v1 b /\ v2 a == v2 b.

(** The telemetry attributes of [Drone] that the handlers read. *)
Record Telemetry : Type := mkTelemetry {
  local_position : Vec3;
  local_velocity : Vec3;
  global_position : Vec3;
  global_home : Vec3
}.

(** Calls on the vehicle interface of [Drone]. *)
Inductive Command : Type :=
| take_control
| arm
| set_home_position (longitude latitude altitude : Q)
| takeoff (target_altitude : Q)
| cmd_position (north east altitude : Q) (heading : Z)
| land
| disarm
| release_control
| stop.

(** The attributes set in [BackyardFlyer.__init__] ([check_state] is
    never read or written afterwards and is left out). *)
Record BackyardFlyer : Type := mkBackyardFlyer {
  target_position : Vec3;
  all_waypoints : list Vec3;
  in_mission : bool;
  square_size : Q;
  flight_state : States
}.

Definition with_target_position (s : BackyardFlyer) (p : Vec3) :=
  mkBackyardFlyer p (all_waypoints s) (in_mission s) (square_size s)
                  (flight_state s).
Definition with_all_waypoints (s : BackyardFlyer) (l : list Vec3) :=
  mkBackyardFlyer (target_position s) l (in_mission s) (square_size s)
                  (flight_state s).
Definition with_in_mission (s : BackyardFlyer) (b : bool) :=
  mkBackyardFlyer (target_position s) (all_waypoints s) b (square_size s)
                  (flight_state s).
Definition with_flight_state (s : BackyardFlyer) (f : States) :=
  mkBackyardFlyer (target_position s) (all_waypoints s) (in_mission s)
                  (square_size s) f.

(** [BackyardFlyer.__init__] *)
Definition init : BackyardFlyer :=
  mkBackyardFlyer (mkVec3 0 0 0) [] true 10 MANUAL.

(** ** The method monad

    A method reads the telemetry snapshot, reads and writes [self],
    appends vehicle commands, and either returns or raises. *)

Inductive Exception : Type := IndexError.

Inductive Outcome (A : Type) : Type :=
| Returned (a : A) (s : BackyardFlyer) (out : list Command)
| Raised (e : Exception).
Arguments Returned {A} a s out.
Arguments Raised {A} e.

Definition M (A : Type) : Type := Telemetry -> BackyardFlyer -> Outcome A.

Definition ret {A} (a : A) : M A := fun _ s => Returned a s [].

Definition bind {A B} (m : M A) (k : A -> M B) : M B :=
  fun env s =>
    match m env s with
    | Returned a s1 o1 =>
        match k a env s1 with
        | Returned b s2 o2 => Returned b s2 (o1 ++ o2)
        | Raised e => Raised e
        end
    | Raised e => Raised e
    end.

Notation "x <- m ;; k" := (bind m (fun x => k))
  (at level 61, m at next level, right associativity).
Notation "m ;; k" := (bind m (fun _ => k))
  (at level 61, right associativity).

Definition raise {A} (e : Exception) : M A := fun _ _ => Raised e.
Definition self {A} (f : BackyardFlyer -> A) : M A :=
  fun _ s => Returned (f s) s [].
Definition telemetry {A} (f : Telemetry -> A) : M A :=
  fun env s => Returned (f env) s [].
Definition assign (f : BackyardFlyer -> BackyardFlyer) : M unit :=
  fun _ s => Returned tt (f s) [].
Definition call (c : Command) : M unit :=
  fun _ s => Returned tt s [c].
Definition pass : M unit := ret tt.

(** ** Numeric helpers *)

Definition Qlt_bool (x y : Q) : bool := negb (Qle_bool y x).

(** One component of [np.isclose(a, b, rtol, atol)] on finite values:
    [abs(a - b) <= atol + rtol * abs(b)]. *)
Definition within_tol (a b rtol atol : Q) : bool :=
  Qle_bool (Qabs (a - b)) (atol + rtol * Qabs b).

(** [np.allclose(a, b, rtol, atol)] on two arrays of shape (3,). *)
Definition allclose (a b : Vec3) (rtol atol : Q) : bool :=
  within_tol (v0 a) (v0 b) rtol atol
  && within_tol (v1 a) (v1 b) rtol atol
  && within_tol (v2 a) (v2 b) rtol atol.

(** The square of [np.linalg.norm(v[0:2])].  The norm itself is a
    square root and need not be rational; the program only compares it
    with 1.0, and [sqrt q < 1] exactly when [q < 1]. *)
Definition norm_sq_01 (v : Vec3) : Q := v0 v * v0 v + v1 v * v1 v.

(** [np.linalg.norm(v[0:2]) < 1.0] *)
Definition norm_01_lt_1 (v : Vec3) : bool := Qlt_bool (norm_sq_01 v) 1.

(** ** The methods of [BackyardFlyer] *)

(** [calculate_box(self, start_point, size)], with exact sums and
    difference.  It agrees with the program wherever float64 performs
    these three operations without rounding, as in the only call the
    controller makes in a mission, on (0,0,3) with size 10. *)
Definition calculate_box (start_point : Vec3) (size : Q) : list Vec3 :=
  let waypoint_1 := set0 start_point (v0 start_point + size) in
  let waypoint_2 := set1 waypoint_1 (v1 waypoint_1 + size) in
  let waypoint_3 := set0 waypoint_2 (v0 waypoint_2 - size) in
  [waypoint_1; waypoint_2; waypoint_3; start_point].

(** A numpy array of shape (3,) whose components are IEEE binary64
    numbers. *)
Record Vec3_float64 : Type :=
  mkVec3_float64 { f0 : float; f1 : float; f2 : float }.

(** [calculate_box(self, start_point, size)] on float64 arrays: the two
    sums and the difference are the rounded binary64 operations. *)
Definition calculate_box_float64 (start_point : Vec3_float64) (size : float)
  : list Vec3_float64 :=
  let waypoint_1 :=
    mkVec3_float64 (f0 start_point + size)%float (f1 start_point)
                   (f2 start_point) in
  let waypoint_2 :=
    mkVec3_float64 (f0 waypoint_1) (f1 waypoint_1 + size)%float
                   (f2 waypoint_1) in
  let waypoint_3 :=
    mkVec3_float64 (f0 waypoint_2 - size)%float (f1 waypoint_2)
                   (f2 waypoint_2) in
  [waypoint_1; waypoint_2; waypoint_3; start_point].

Definition arming_transition : M unit :=
  call take_control ;;
  call arm ;;
  gp <- telemetry global_position ;;
  call (set_home_position (v0 gp) (v1 gp) (v2 gp)) ;;
  assign (fun s => with_flight_state s ARMING).

Definition takeoff_transition : M unit :=
  let target_altitude := 3 in
  assign (fun s => with_target_position s
                     (set2 (target_position s) target_altitude)) ;;
  call (takeoff target_altitude) ;;
  assign (fun s => with_flight_state s TAKEOFF).

Definition landing_transition : M unit :=
  call land ;;
  assign (fun s => with_flight_state s LANDING).

Definition disarming_transition : M unit :=
  call disarm ;;
  assign (fun s => with_flight_state s DISARMING).

Definition manual_transition : M unit :=
  call release_control ;;
  call stop ;;
  assign (fun s => with_in_mission s false) ;;
  assign (fun s => with_flight_state s MANUAL).

(** [self.all_waypoints.pop(0)] *)
Definition all_waypoints_pop_0 : M Vec3 :=
  l <- self all_waypoints ;;
  match l with
  | [] => raise IndexError
  | w :: rest => assign (fun s => with_all_waypoints s rest) ;; ret w
  end.

(** Truth value of a Python list: non-empty. *)
Definition truthy {A} (l : list A) : bool :=
  match l with [] => false | _ :: _ => true end.

Definition waypoint_transition : M unit :=
  l <- self all_waypoints ;;
  if truthy l then
    w <- all_waypoints_pop_0 ;;
    assign (fun s => with_target_position s w) ;;
    tp <- self target_position ;;
    call (cmd_position (v0 tp) (v1 tp) (v2 tp) 0)
  else
    vel <- telemetry local_velocity ;;
    if norm_01_lt_1 vel then landing_transition else pass.

(** The local variable [current_position] of [local_position_callback]:
    a copy of the local position whose component 2 is multiplied by -1. *)
Definition current_position (env : Telemetry) : Vec3 :=
  let c := local_position env in
  set2 c (v2 c * -1).

(** The local variable [position_reached] of [local_position_callback]. *)
Definition position_reached (env : Telemetry) (s : BackyardFlyer) : bool :=
  allclose (target_position s) (current_position env) 0 (1 # 4).

Definition local_position_callback : M unit :=
  reached <- (fun env s => Returned (position_reached env s) s []) ;;
  if reached then
    fs <- self flight_state ;;
    if States_eqb fs TAKEOFF then
      tp <- self target_position ;;
      sz <- self square_size ;;
      assign (fun s => with_all_waypoints s (calculate_box tp sz)) ;;
      assign (fun s => with_flight_state s WAYPOINT) ;;
      waypoint_transition
    else if States_eqb fs WAYPOINT then
      waypoint_transition
    else pass
  else pass.

Definition velocity_callback : M unit :=
  fs <- self flight_state ;;
  if States_eqb fs LANDING then
    gp <- telemetry global_position ;;
    gh <- telemetry global_home ;;
    lp <- telemetry local_position ;;
    if Qlt_bool (v2 gp - v2 gh) (1 # 10) && Qlt_bool (Qabs (v2 lp)) (1 # 100)
    then disarming_transition
    else pass
  else pass.

Definition state_callback : M unit :=
  im <- self in_mission ;;
  if negb im then pass
  else
    fs <- self flight_state ;;
    if States_eqb fs MANUAL then arming_transition
    else if States_eqb fs ARMING then takeoff_transition
    else if States_eqb fs DISARMING then manual_transition
    else pass.

(** ** The dispatcher *)

(** The message kinds for which [__init__] registers a callback. *)
Inductive MsgID : Type := LOCAL_POSITION | LOCAL_VELOCITY | STATE.

Definition Event : Type := (MsgID * Telemetry)%type.

Definition callback (m : MsgID) : M unit :=
  match m with
  | LOCAL_POSITION => local_position_callback
  | LOCAL_VELOCITY => velocity_callback
  | STATE => state_callback
  end.

Definition notify (ev : Event) (s : BackyardFlyer) : Outcome unit :=
  callback (fst ev) (snd ev) s.

(** Delivery of a stream of events, one handler at a time.  The result
    lists the flight states visited (the one at the start, then the one
    after each event) and all the commands issued. *)
Fixpoint run (evs : list Event) (s : BackyardFlyer) : Outcome (list States) :=
  match evs with
  | [] => Returned [flight_state s] s []
  | ev :: rest =>
      match notify ev s with
      | Returned _ s1 o1 =>
          match run rest s1 with
          | Returned visited s2 o2 =>
              Returned (flight_state s :: visited) s2 (o1 ++ o2)
          | Raised e => Raised e
          end
      | Raised e => Raised e
      end
  end.

(** ** Guards

    The conditions under which an event makes a transition, collected
    from the [if]s of the three callbacks and of [waypoint_transition]. *)

Definition landed (env : Telemetry) : bool :=
  Qlt_bool (v2 (global_position env) - v2 (global_home env)) (1 # 10)
  && Qlt_bool (Qabs (v2 (local_position env))) (1 # 100).

Definition guard (ev : Event) (s : BackyardFlyer) : bool :=
  let env := snd ev in
  match fst ev, flight_state s with
  | STATE, (MANUAL | ARMING | DISARMING) => in_mission s
  | LOCAL_POSITION, TAKEOFF => position_reached env s
  | LOCAL_POSITION, WAYPOINT =>
      position_reached env s
      && (truthy (all_waypoints s) || norm_01_lt_1 (local_velocity env))
  | LOCAL_VELOCITY, LANDING => landed env
  | _, _ => false
  end.

(** Every event of the stream meets its guard in the state in which it
    is delivered. *)
Fixpoint guards_in_order (evs : list Event) (s : BackyardFlyer) : bool :=
  match evs with
  | [] => true
  | ev :: rest =>
      guard ev s
      && match notify ev s with
         | Returned _ s1 _ => guards_in_order rest s1
         | Raised _ => false
         end
  end.

Definition mission_sequence : list States :=
  [MANUAL; ARMING; TAKEOFF; WAYPOINT; WAYPOINT; WAYPOINT; WAYPOINT;
   LANDING; DISARMING; MANUAL].

(** The [cmd_position] calls among a list of commands. *)
Fixpoint positions_commanded (out : list Command) : list (Vec3 * Z) :=
  match out with
  | [] => []
  | cmd_position n e a h :: rest =>
      (mkVec3 n e a, h) :: positions_commanded rest
  | _ :: rest => positions_commanded rest
  end.

(** The box flown by a controller created by [__init__]. *)
Definition plan : list Vec3 := calculate_box (mkVec3 0 0 3) 10.

(** ** Vocabulary of the properties *)

(** Two float64 points that are equal on two axes and whose third
    coordinates, subtracted one way or the other, give [size]. *)
Definition differ_along_one_axis_float64
    (size : float) (p q : Vec3_float64) : Prop :=
  (((f0 q - f0 p = size \/ f0 p - f0 q = size)
    /\ f1 q = f1 p /\ f2 q = f2 p)
   \/ ((f1 q - f1 p = size \/ f1 p - f1 q = size)
       /\ f0 q = f0 p /\ f2 q = f2 p)
   \/ ((f2 q - f2 p = size \/ f2 p - f2 q = size)
       /\ f0 q = f0 p /\ f1 q = f1 p))%float.

(** The float64 sum [x + d] is exact: subtracting either operand from it
    gives back the other. *)
Definition exact_sum (x d : float) : Prop :=
  ((x + d) - x = d /\ (x + d) - d = x)%float.

(** The landing test with the vertical speed (component 2 of the local
    velocity) in place of component 2 of the local position that
    [velocity_callback] reads; for comparison with [landed]. *)
Definition slow_near_home (env : Telemetry) : bool :=
  Qlt_bool (v2 (global_position env) - v2 (global_home env)) (1 # 10)
  && Qlt_bool (Qabs (v2 (local_velocity env))) (1 # 100).

(** The guard of row [row] of the transition table of the specification
    (rows numbered 0 to 8 in mission order), as the specification words
    it: the landing row tests the vertical speed ([slow_near_home]).  For
    comparison with [guard]. *)
Definition row_guard_as_specified
    (row : nat) (ev : Event) (s : BackyardFlyer) : bool :=
  let env := snd ev in
  match row, fst ev with
  | 0%nat, STATE | 1%nat, STATE | 8%nat, STATE => in_mission s
  | 2%nat, LOCAL_POSITION => position_reached env s
  | 3%nat, LOCAL_POSITION | 4%nat, LOCAL_POSITION | 5%nat, LOCAL_POSITION =>
      position_reached env s && truthy (all_waypoints s)
  | 6%nat, LOCAL_POSITION =>
      position_reached env s && negb (truthy (all_waypoints s))
      && norm_01_lt_1 (local_velocity env)
  | 7%nat, LOCAL_VELOCITY => slow_near_home env
  | _, _ => false
  end.

(** The events of a stream meet the specified guards of rows [row],
    [row + 1], ... in this order, each in the state in which it is
    delivered. *)
Fixpoint rows_as_specified_in_order
    (row : nat) (evs : list Event) (s : BackyardFlyer) : bool :=
  match evs with
  | [] => true
  | ev :: rest =>
      row_guard_as_specified row ev s
      && match notify ev s with
         | Returned _ s1 _ => rows_as_specified_in_order (S row) rest s1
         | Raised _ => false
         end
  end.

(** Square of the Euclidean distance between two points. *)
Definition dist_sq (a b : Vec3) : Q :=
  (v0 a - v0 b) * (v0 a - v0 b) + (v1 a - v1 b) * (v1 a - v1 b)
  + (v2 a - v2 b) * (v2 a - v2 b).

(** Progress through the mission: [phase k s] says that [s] is what the
    controller looks like after [k] transitions. *)
Definition phase (k : nat) (s : BackyardFlyer) : Prop :=
  match k with
  | 0%nat => flight_state s = MANUAL /\ in_mission s = true
  | 1%nat => flight_state s = ARMING /\ in_mission s = true
  | 2%nat => flight_state s = TAKEOFF /\ in_mission s = true
  | 3%nat => flight_state s = WAYPOINT /\ in_mission s = true
             /\ length (all_waypoints s) = 3%nat
  | 4%nat => flight_state s = WAYPOINT /\ in_mission s = true
             /\ length (all_waypoints s) = 2%nat
  | 5%nat => flight_state s = WAYPOINT /\ in_mission s = true
             /\ length (all_waypoints s) = 1%nat
  | 6%nat => flight_state s = WAYPOINT /\ in_mission s = true
             /\ length (all_waypoints s) = 0%nat
  | 7%nat => flight_state s = LANDING /\ in_mission s = true
  | 8%nat => flight_state s = DISARMING /\ in_mission s = true
  | 9%nat => flight_state s = MANUAL /\ in_mission s = false
  | _ => False
  end.

(** What holds of the controller [s] and of the positions [sent] it has
    commanded so far, in every execution from [init]. *)
Definition mission_inv (s : BackyardFlyer) (sent : list (Vec3 * Z)) : Prop :=
  square_size s = 10
  /\ (in_mission s = false -> flight_state s = MANUAL)
  /\ Forall (fun c => snd c = 0%Z) sent
  /\ let popped := map fst sent in
     match flight_state s with
     | MANUAL =>
         (in_mission s = true /\ target_position s = mkVec3 0 0 0
          /\ all_waypoints s = [] /\ popped = [])
         \/ (in_mission s = false /\ all_waypoints s = [] /\ popped = plan
             /\ last popped (mkVec3 0 0 0) = target_position s)
     | ARMING =>
         target_position s = mkVec3 0 0 0
         /\ all_waypoints s = [] /\ popped = []
     | TAKEOFF =>
         target_position s = mkVec3 0 0 3
         /\ all_waypoints s = [] /\ popped = []
     | WAYPOINT =>
         popped ++ all_waypoints s = plan
         /\ popped <> []
         /\ last popped (mkVec3 0 0 0) = target_position s
     | LANDING | DISARMING =>
         all_waypoints s = [] /\ popped = plan
         /\ last popped (mkVec3 0 0 0) = target_position s
     end.

(** ** Sample telemetry and controller states *)

(** A snapshot with the given local position, at rest, with the global
    position at home. *)
Definition snapshot (north east down : Q) : Telemetry :=
  mkTelemetry (mkVec3 north east down) (mkVec3 0 0 0)
              (mkVec3 0 0 0) (mkVec3 0 0 0).

(** On the ground at home, still sinking at 1 m/s. *)
Definition env_fast_on_ground : Telemetry :=
  mkTelemetry (mkVec3 0 0 0) (mkVec3 0 0 1) (mkVec3 0 0 0) (mkVec3 0 0 0).

(** Standing still, local position 3 m above the local origin. *)
Definition env_still_aloft : Telemetry :=
  mkTelemetry (mkVec3 0 0 (-3)) (mkVec3 0 0 0) (mkVec3 0 0 0) (mkVec3 0 0 0).

(** A flight that meets every guard: arm, take off, reach 3 m, fly the
    four corners, land, disarm, release. *)
Definition mission_events : list Event :=
  [ (STATE, snapshot 0 0 0);
    (STATE, snapshot 0 0 0);
    (LOCAL_POSITION, snapshot 0 0 (-3));
    (LOCAL_POSITION, snapshot 10 0 (-3));
    (LOCAL_POSITION, snapshot 10 10 (-3));
    (LOCAL_POSITION, snapshot 0 10 (-3));
    (LOCAL_POSITION, snapshot 0 0 (-3));
    (LOCAL_VELOCITY, snapshot 0 0 0);
    (STATE, snapshot 0 0 0) ].

(** Hovering at the take-off target 3 m above the start. *)
Definition takeoff_state : BackyardFlyer :=
  mkBackyardFlyer (mkVec3 0 0 3) [] true 10 TAKEOFF.

(** Descending after the last corner. *)
Definition landing_state : BackyardFlyer :=
  mkBackyardFlyer (mkVec3 0 0 3) [] true 10 LANDING.

(** The same flight, except that the velocity event finds the vehicle
    at rest 5 cm above the local origin, at the home altitude. *)
Definition hover_events : list Event :=
  firstn 7 mission_events
  ++ [ (LOCAL_VELOCITY, snapshot 0 0 (- (5 # 100)));
       (STATE, snapshot 0 0 0) ].

(** After the mission: control released, [in_mission] cleared. *)
Definition finished : BackyardFlyer :=
  mkBackyardFlyer (mkVec3 0 0 3) [] false 10 MANUAL.

(** ** Vocabulary of the execution properties *)

(** The ten controllers met in an execution that starts from [init],
    numbered by the transitions made so far. *)
Definition state_at (k : nat) : BackyardFlyer :=
  match k with
  | 0%nat => mkBackyardFlyer (mkVec3 0 0 0) [] true 10 MANUAL
  | 1%nat => mkBackyardFlyer (mkVec3 0 0 0) [] true 10 ARMING
  | 2%nat => mkBackyardFlyer (mkVec3 0 0 3) [] true 10 TAKEOFF
  | 3%nat =>
      mkBackyardFlyer (mkVec3 10 0 3)
        [mkVec3 10 10 3; mkVec3 0 10 3; mkVec3 0 0 3] true 10 WAYPOINT
  | 4%nat =>
      mkBackyardFlyer (mkVec3 10 10 3)
        [mkVec3 0 10 3; mkVec3 0 0 3] true 10 WAYPOINT
  | 5%nat =>
      mkBackyardFlyer (mkVec3 0 10 3) [mkVec3 0 0 3] true 10 WAYPOINT
  | 6%nat => mkBackyardFlyer (mkVec3 0 0 3) [] true 10 WAYPOINT
  | 7%nat => mkBackyardFlyer (mkVec3 0 0 3) [] true 10 LANDING
  | 8%nat => mkBackyardFlyer (mkVec3 0 0 3) [] true 10 DISARMING
  | _ => mkBackyardFlyer (mkVec3 0 0 3) [] false 10 MANUAL
  end.

(** The commands of a whole mission whose home is [h]. *)
Definition mission_commands (h : Vec3) : list Command :=
  [ take_control; arm; set_home_position (v0 h) (v1 h) (v2 h);
    takeoff 3;
    cmd_position 10 0 3 0; cmd_position 10 10 3 0;
    cmd_position 0 10 3 0; cmd_position 0 0 3 0;
    land; disarm; release_control; stop ].

(** How many of the [mission_commands] have been issued after [k]
    transitions. *)
Definition commands_after (k : nat) : nat :=
  nth k [0; 3; 4; 5; 6; 7; 8; 9; 10; 12]%nat 12%nat.

(** The number of events of a stream that meet their guard when they
    are delivered. *)
Fixpoint fired (evs : list Event) (s : BackyardFlyer) : nat :=
  match evs with
  | [] => 0%nat
  | ev :: rest =>
      ((if guard ev s then 1 else 0)
       + match notify ev s with
         | Returned _ s1 _ => fired rest s1
         | Raised _ => 0
         end)%nat
  end.

(** The global position carried by the first [STATE] event of a stream
    (the origin when there is none). *)
Fixpoint home_of (evs : list Event) : Vec3 :=
  match evs with
  | [] => mkVec3 0 0 0
  | (STATE, env) :: _ => global_position env
  | _ :: rest => home_of rest
  end.

(** An event that makes the next transition of [s]: a status event, a
    position event with the vehicle at rest exactly at the target, or a
    velocity event with the vehicle at rest at home. *)
Definition next_event (s : BackyardFlyer) : Event :=
  match flight_state s with
  | MANUAL | ARMING | DISARMING => (STATE, snapshot 0 0 0)
  | TAKEOFF | WAYPOINT =>
      let tp := target_position s in
      (LOCAL_POSITION, snapshot (v0 tp) (v1 tp) (- v2 tp))
  | LANDING => (LOCAL_VELOCITY, snapshot 0 0 0)
  end.

(** The stream made of [n] successive [next_event]s. *)
Fixpoint completion (n : nat) (s : BackyardFlyer) : list Event :=
  match n with
  | O => []
  | S m =>
      next_event s
      :: match notify (next_event s) s with
         | Returned _ s1 _ => completion m s1
         | Raised _ => []
         end
  end.

(** The number of transitions left before the mission is over, for a
    controller that is in mission. *)
Definition remaining (s : BackyardFlyer) : nat :=
  match flight_state s with
  | MANUAL => 9
  | ARMING => 8
  | TAKEOFF => 7
  | WAYPOINT => 3 + length (all_waypoints s)
  | LANDING => 2
  | DISARMING => 1
  end%nat.

(** The call [self.cmd_position(w[0], w[1], w[2], 0)]. *)
Definition cmd_position_to (w : Vec3) : Command :=
  cmd_position (v0 w) (v1 w) (v2 w) 0.

(** * Properties *)

(** ** What each handler does *)

Ltac unfold_methods :=
  unfold notify, callback, local_position_callback, velocity_callback,
    state_callback, waypoint_transition, all_waypoints_pop_0,
    arming_transition, takeoff_transition, landing_transition,
    disarming_transition, manual_transition,
    bind, ret, raise, self, telemetry, assign, call, pass in *.

Ltac exec := unfold_methods; cbn in *.

Lemma eta_Vec3 (v : Vec3) : mkVec3 (v0 v) (v1 v) (v2 v) = v.
Proof. destruct v; reflexivity. Qed.

Lemma waypoint_transition_pop env tp w rest im sz fs :
  waypoint_transition env (mkBackyardFlyer tp (w :: rest) im sz fs)
  = Returned tt (mkBackyardFlyer w rest im sz fs)
             [cmd_position (v0 w) (v1 w) (v2 w) 0].
Proof. reflexivity. Qed.

Lemma waypoint_transition_empty env tp im sz fs :
  waypoint_transition env (mkBackyardFlyer tp [] im sz fs)
  = if norm_01_lt_1 (local_velocity env)
    then Returned tt (mkBackyardFlyer tp [] im sz LANDING) [land]
    else Returned tt (mkBackyardFlyer tp [] im sz fs) [].
Proof. exec. destruct (norm_01_lt_1 _); reflexivity. Qed.

Lemma local_position_callback_not_reached env s :
  position_reached env s = false ->
  local_position_callback env s = Returned tt s [].
Proof. intros H. exec. rewrite H. reflexivity. Qed.

Lemma local_position_callback_takeoff env tp l im sz :
  let s := mkBackyardFlyer tp l im sz TAKEOFF in
  position_reached env s = true ->
  local_position_callback env s
  = waypoint_transition env
      (mkBackyardFlyer tp (calculate_box tp sz) im sz WAYPOINT).
Proof.
  intros s H. unfold local_position_callback, bind at 1.
  rewrite H. subst s. reflexivity.
Qed.

Lemma local_position_callback_waypoint env tp l im sz :
  let s := mkBackyardFlyer tp l im sz WAYPOINT in
  position_reached env s = true ->
  local_position_callback env s = waypoint_transition env s.
Proof.
  intros s H. unfold local_position_callback, bind at 1.
  rewrite H. subst s. cbn -[waypoint_transition].
  destruct (waypoint_transition env _); reflexivity.
Qed.

Lemma local_position_callback_other env s :
  flight_state s <> TAKEOFF -> flight_state s <> WAYPOINT ->
  local_position_callback env s = Returned tt s [].
Proof.
  intros H1 H2. exec. destruct (position_reached env s); [|reflexivity].
  destruct s as [tp l im sz []]; cbn in *; congruence.
Qed.

Lemma velocity_callback_landing env tp l im sz :
  velocity_callback env (mkBackyardFlyer tp l im sz LANDING)
  = if landed env
    then Returned tt (mkBackyardFlyer tp l im sz DISARMING) [disarm]
    else Returned tt (mkBackyardFlyer tp l im sz LANDING) [].
Proof. exec. unfold landed. destruct (_ && _); reflexivity. Qed.

Lemma velocity_callback_other env s :
  flight_state s <> LANDING ->
  velocity_callback env s = Returned tt s [].
Proof.
  intros H. destruct s as [tp l im sz []]; cbn in *; congruence.
Qed.

Lemma state_callback_not_in_mission env s :
  in_mission s = false -> state_callback env s = Returned tt s [].
Proof. intros H. exec. rewrite H. reflexivity. Qed.

Lemma state_callback_in_mission env tp l sz fs :
  state_callback env (mkBackyardFlyer tp l true sz fs)
  = match fs with
    | MANUAL =>
        let gp := global_position env in
        Returned tt (mkBackyardFlyer tp l true sz ARMING)
          [take_control; arm; set_home_position (v0 gp) (v1 gp) (v2 gp)]
    | ARMING =>
        Returned tt (mkBackyardFlyer (set2 tp 3) l true sz TAKEOFF)
          [takeoff 3]
    | DISARMING =>
        Returned tt (mkBackyardFlyer tp l false sz MANUAL)
          [release_control; stop]
    | _ => Returned tt (mkBackyardFlyer tp l true sz fs) []
    end.
Proof. destruct fs; reflexivity. Qed.

(** No handler raises, whatever the state and the telemetry. *)
Lemma waypoint_transition_returns env s :
  exists s' out, waypoint_transition env s = Returned tt s' out.
Proof.
  destruct s as [tp [|w rest] im sz fs].
  - rewrite waypoint_transition_empty. destruct (norm_01_lt_1 _); eauto.
  - rewrite waypoint_transition_pop. eauto.
Qed.

Lemma notify_returns ev s :
  exists s' out, notify ev s = Returned tt s' out.
Proof.
  destruct ev as [[] env]; unfold notify, callback, fst, snd.
  - destruct (position_reached env s) eqn:R.
    + destruct s as [tp l im sz fs].
      destruct fs;
        try (rewrite local_position_callback_other by (cbn; congruence);
             eauto).
      * rewrite local_position_callback_takeoff by exact R.
        apply waypoint_transition_returns.
      * rewrite local_position_callback_waypoint by exact R.
        apply waypoint_transition_returns.
    + rewrite local_position_callback_not_reached by exact R. eauto.
  - destruct s as [tp l im sz fs]. destruct fs;
      try (rewrite velocity_callback_other by (cbn; congruence); eauto).
    rewrite velocity_callback_landing. destruct (landed env); eauto.
  - destruct s as [tp l [] sz fs].
    + rewrite state_callback_in_mission. destruct fs; eauto.
    + rewrite state_callback_not_in_mission by reflexivity. eauto.
Qed.

Lemma run_returns evs : forall s,
  exists visited s' out, run evs s = Returned visited s' out.
Proof.
  induction evs as [|ev rest IH]; intros s; cbn.
  - eauto.
  - destruct (notify_returns ev s) as (s1 & o1 & E). rewrite E.
    destruct (IH s1) as (vis & s2 & o2 & E2). rewrite E2. eauto.
Qed.

(** An event whose guard fails is a no-op. *)
Lemma notify_guard_false ev s :
  guard ev s = false -> notify ev s = Returned tt s [].
Proof.
  destruct ev as [[] env]; unfold guard, notify, callback, fst, snd; intros G.
  - destruct s as [tp l im sz fs]. cbn [flight_state] in G.
    destruct fs;
      try (apply local_position_callback_other; cbn; congruence).
    + apply local_position_callback_not_reached. exact G.
    + destruct (position_reached env _) eqn:R.
      * rewrite local_position_callback_waypoint by exact R.
        cbn in G. destruct l as [|w rest]; [|discriminate].
        rewrite waypoint_transition_empty. cbn in G. rewrite G. reflexivity.
      * apply local_position_callback_not_reached. exact R.
  - destruct s as [tp l im sz fs]. cbn [flight_state] in G.
    destruct fs;
      try (apply velocity_callback_other; cbn; congruence).
    rewrite velocity_callback_landing, G. reflexivity.
  - destruct s as [tp l [] sz fs].
    + rewrite state_callback_in_mission. cbn in G.
      destruct fs; try discriminate; reflexivity.
    + apply state_callback_not_in_mission. reflexivity.
Qed.

(** ** Arithmetic of the comparisons *)

Lemma Qlt_bool_iff (x y : Q) : Qlt_bool x y = true <-> x < y.
Proof.
  unfold Qlt_bool. rewrite negb_true_iff. split; intros H.
  - apply Qnot_le_lt. intros L. apply Qle_bool_iff in L. congruence.
  - destruct (Qle_bool y x) eqn:E; [|reflexivity].
    apply Qle_bool_iff in E. exfalso. exact (Qlt_not_le _ _ H E).
Qed.

Lemma within_tol_abs (a b atol : Q) :
  within_tol a b 0 atol = true <-> Qabs (b - a) <= atol.
Proof.
  unfold within_tol. rewrite Qle_bool_iff.
  rewrite (Qabs_Qminus a b).
  assert (E : atol + 0 * Qabs b == atol) by ring.
  rewrite E. reflexivity.
Qed.

Lemma landed_iff env :
  landed env = true <->
  v2 (global_position env) - v2 (global_home env) < 1 # 10
  /\ Qabs (v2 (local_position env)) < 1 # 100.
Proof. unfold landed. now rewrite andb_true_iff, !Qlt_bool_iff. Qed.

(** ** The waypoint planner *)

Ltac float_discriminate H :=
  match type of H with
  | ?a = ?b =>
      apply (f_equal (PrimFloat.eqb b)) in H; vm_compute in H;
      discriminate H
  end.

(** C2, as stated, fails.  In float64, from start (0.1, 0, 3) with size
    0.2 the north coordinate of the third point is 0.10000000000000003,
    not 0.1: the leg from the third point back to the start moves on both
    the north and the east axis; and the first leg is
    0.20000000000000004 long, not 0.2. *)
Lemma calculate_box_float64_rounds :
  let start := mkVec3_float64 0.1 0 3 in
  let w1 := mkVec3_float64 0.30000000000000004 0 3 in
  let w2 := mkVec3_float64 0.30000000000000004 0.2 3 in
  let w3 := mkVec3_float64 0.10000000000000003 0.2 3 in
  calculate_box_float64 start 0.2 = [w1; w2; w3; start]
  /\ f0 w3 <> f0 start /\ f1 w3 <> f1 start
  /\ (f0 w1 - f0 start = 0.20000000000000004)%float
  /\ ~ differ_along_one_axis_float64 0.2 w3 start
  /\ ~ differ_along_one_axis_float64 0.2 start w1.
Proof.
  cbv zeta. split; [reflexivity|].
  unfold differ_along_one_axis_float64; cbn [f0 f1 f2].
  split; [intros H; float_discriminate H|].
  split; [intros H; float_discriminate H|].
  split; [reflexivity|]. split.
  - intros [[_ [H _]]|[[_ [H _]]|[[H|H] _]]]; float_discriminate H.
  - intros [[[H|H] _]|[[[H|H] _]|[[H|H] _]]]; float_discriminate H.
Qed.

(** C2, amended.  For every float64 start point and size,
    [calculate_box] returns the four points [start] with north
    [north + size], that point with east [east + size], that point with
    north [(north + size) - size], and [start] itself, in this order, the
    sums and the difference being float64 operations.  Every point has
    the altitude of the start; each of the first three legs changes one
    coordinate only (north, east, north).  Whenever the two sums
    [north + size] and [east + size] are exact, each point of the closed
    path start, 1, 2, 3, 4 differs from its predecessor by exactly [size]
    along exactly one axis.  This is the case from (0,0,3) with size 10,
    where the result is (10,0,3), (10,10,3), (0,10,3), (0,0,3). *)
Theorem calculate_box_float64_square (start : Vec3_float64) (size : float) :
  let n := f0 start in
  let e := f1 start in
  let a := f2 start in
  let w1 := mkVec3_float64 (n + size) e a in
  let w2 := mkVec3_float64 (n + size) (e + size) a in
  let w3 := mkVec3_float64 ((n + size) - size) (e + size) a in
  let box := calculate_box_float64 start size in
  box = [w1; w2; w3; start]
  /\ length box = 4%nat
  /\ Forall (fun p => f2 p = f2 start) box
  /\ (forall p q,
        In (p, q) (combine (start :: box) (firstn 3 box)) ->
        (f1 q = f1 p /\ f2 q = f2 p) \/ (f0 q = f0 p /\ f2 q = f2 p))
  /\ (exact_sum n size -> exact_sum e size ->
      forall p q,
        In (p, q) (combine (start :: box) box) ->
        differ_along_one_axis_float64 size p q)
  /\ (exact_sum 0 10
      /\ calculate_box_float64 (mkVec3_float64 0 0 3) 10
         = [mkVec3_float64 10 0 3; mkVec3_float64 10 10 3;
            mkVec3_float64 0 10 3; mkVec3_float64 0 0 3]).
Proof.
  intros n e a w1 w2 w3 box. subst n e a w1 w2 w3 box.
  destruct start as [n e a]. unfold calculate_box_float64.
  cbn [f0 f1 f2 length firstn combine].
  split; [reflexivity|]. split; [reflexivity|].
  split; [repeat constructor|]. split; [|split].
  - intros p q H. cbn [In] in H.
    destruct H as [H|[H|[H|[]]]]; inversion H; subst; clear H;
      cbn [f0 f1 f2]; auto.
  - intros [N1 N2] [E1 E2] p q H. cbn [In] in H.
    unfold differ_along_one_axis_float64.
    destruct H as [H|[H|[H|[H|[]]]]]; inversion H; subst; clear H;
      cbn [f0 f1 f2].
    + left. auto.
    + right; left. auto.
    + left. rewrite N2. auto.
    + right; left. rewrite N2. auto.
  - split; [split; reflexivity | reflexivity].
Qed.

Lemma calculate_box_float64_square_witness :
  differ_along_one_axis_float64 10
    (mkVec3_float64 0 0 3) (mkVec3_float64 10 0 3)
  /\ differ_along_one_axis_float64 10
       (mkVec3_float64 10 0 3) (mkVec3_float64 10 10 3)
  /\ differ_along_one_axis_float64 10
       (mkVec3_float64 10 10 3) (mkVec3_float64 0 10 3)
  /\ differ_along_one_axis_float64 10
       (mkVec3_float64 0 10 3) (mkVec3_float64 0 0 3).
Proof.
  assert (H : forall p q,
             In (p, q)
                (combine
                   (mkVec3_float64 0 0 3
                    :: calculate_box_float64 (mkVec3_float64 0 0 3) 10)
                   (calculate_box_float64 (mkVec3_float64 0 0 3) 10)) ->
             differ_along_one_axis_float64 10 p q).
  { apply (calculate_box_float64_square (mkVec3_float64 0 0 3) 10);
      split; reflexivity. }
  repeat split; apply H; cbn; auto.
Defined.

(** ** The position-reached test *)

(** C3.  The position-reached test of [local_position_callback] holds
    exactly when, on each axis separately, the current reading (the local
    position with its component 2 negated) is at most 0.25 from the
    target.  With target (0,0,0), the current reading (0.2,0.2,0.2) is
    reached although its Euclidean distance to the target exceeds 0.25,
    and (0.3,0,0) is not reached. *)
Theorem position_reached_componentwise (env : Telemetry) (s : BackyardFlyer) :
  let cur := mkVec3 (v0 (local_position env)) (v1 (local_position env))
                    (- v2 (local_position env)) in
  let tgt := target_position s in
  (position_reached env s = true <->
   Qabs (v0 cur - v0 tgt) <= 1 # 4
   /\ Qabs (v1 cur - v1 tgt) <= 1 # 4
   /\ Qabs (v2 cur - v2 tgt) <= 1 # 4)
  /\ Vec3_equiv (current_position env) cur
  /\ (let tgt0 := with_target_position init (mkVec3 0 0 0) in
      let env1 := snapshot (2 # 10) (2 # 10) (- (2 # 10)) in
      let env2 := snapshot (3 # 10) 0 0 in
      current_position env1 = mkVec3 (2 # 10) (2 # 10) (2 # 10)
      /\ position_reached env1 tgt0 = true
      /\ ~ dist_sq (current_position env1) (target_position tgt0)
           <= (1 # 4) * (1 # 4)
      /\ current_position env2 = mkVec3 (3 # 10) 0 0
      /\ position_reached env2 tgt0 = false).
Proof.
  intros cur tgt. split; [|split].
  - unfold position_reached, allclose.
    rewrite !andb_true_iff, !within_tol_abs.
    unfold current_position, set2. cbn [v0 v1 v2].
    assert (E : v2 (local_position env) * -1 - v2 (target_position s)
                == - v2 (local_position env) - v2 tgt) by (subst tgt; ring).
    rewrite E. tauto.
  - unfold Vec3_equiv; cbn. repeat split; try reflexivity. ring.
  - cbn zeta. repeat split; try reflexivity.
    intros H. vm_compute in H. apply H. reflexivity.
Qed.

(** ** The velocity handler *)

(** C4, as stated, fails.  In [LANDING], with no altitude gap and a
    vertical speed of 1 the handler disarms; with no altitude gap and no
    vertical speed, but a local position 3 above the origin, it does
    nothing. *)
Lemma velocity_callback_ignores_speed :
  (slow_near_home env_fast_on_ground = false
   /\ velocity_callback env_fast_on_ground landing_state
      = Returned tt (with_flight_state landing_state DISARMING) [disarm])
  /\ (slow_near_home env_still_aloft = true
      /\ velocity_callback env_still_aloft landing_state
         = Returned tt landing_state []).
Proof. repeat split; reflexivity. Qed.

(** C4, amended.  A velocity event delivered in [LANDING] issues [disarm]
    and moves to [DISARMING] exactly when the global altitude minus the
    home altitude is below 0.1 and the magnitude of component 2 of the
    local position is below 0.01; otherwise it changes nothing and issues
    nothing. *)
Theorem velocity_callback_in_landing (env : Telemetry) (s : BackyardFlyer) :
  flight_state s = LANDING ->
  let gap := v2 (global_position env) - v2 (global_home env) in
  let height := Qabs (v2 (local_position env)) in
  (velocity_callback env s
     = Returned tt (with_flight_state s DISARMING) [disarm]
   <-> gap < 1 # 10 /\ height < 1 # 100)
  /\ (~ (gap < 1 # 10 /\ height < 1 # 100) ->
      velocity_callback env s = Returned tt s []).
Proof.
  intros F gap height. subst gap height.
  destruct s as [tp l im sz fs]. cbn in F. subst fs.
  rewrite velocity_callback_landing, <- landed_iff.
  unfold with_flight_state; cbn [target_position all_waypoints in_mission
                                  square_size flight_state].
  destruct (landed env); split.
  - tauto.
  - intros H. exfalso. apply H. reflexivity.
  - split; intros H; discriminate H.
  - reflexivity.
Qed.

Lemma velocity_callback_in_landing_witness :
  flight_state landing_state = LANDING
  /\ velocity_callback env_fast_on_ground landing_state
     = Returned tt (with_flight_state landing_state DISARMING) [disarm].
Proof.
  split; [reflexivity|].
  apply (velocity_callback_in_landing env_fast_on_ground landing_state);
    [reflexivity|].
  split; reflexivity.
Defined.

(** C8.  A velocity event delivered in a state other than [LANDING]
    issues no command (so no [disarm]) and leaves the controller as it
    was, whatever the telemetry holds. *)
Theorem velocity_callback_outside_landing (env : Telemetry) (s : BackyardFlyer) :
  flight_state s <> LANDING ->
  velocity_callback env s = Returned tt s []
  /\ notify (LOCAL_VELOCITY, env) s = Returned tt s [].
Proof.
  intros H. split; apply velocity_callback_other; exact H.
Qed.

Lemma velocity_callback_outside_landing_witness :
  velocity_callback env_fast_on_ground init = Returned tt init []
  /\ notify (LOCAL_VELOCITY, env_fast_on_ground) init = Returned tt init [].
Proof.
  apply (velocity_callback_outside_landing env_fast_on_ground init).
  discriminate.
Defined.

(** ** The mission flag *)

Lemma notify_keeps_not_in_mission ev s s' out :
  in_mission s = false -> notify ev s = Returned tt s' out ->
  in_mission s' = false.
Proof.
  intros H E. destruct ev as [[] env]; unfold notify, callback, fst, snd in E.
  - destruct (position_reached env s) eqn:R.
    + destruct s as [tp l im sz fs]. cbn in H. subst im.
      destruct fs;
        try (rewrite local_position_callback_other in E
               by (cbn; congruence); inversion E; reflexivity).
      * rewrite local_position_callback_takeoff in E by exact R.
        cbv in E. inversion E. reflexivity.
      * rewrite local_position_callback_waypoint in E by exact R.
        destruct l as [|w rest].
        -- rewrite waypoint_transition_empty in E.
           destruct (norm_01_lt_1 _); inversion E; reflexivity.
        -- rewrite waypoint_transition_pop in E. inversion E. reflexivity.
    + rewrite local_position_callback_not_reached in E by exact R.
      inversion E; subst; exact H.
  - destruct s as [tp l im sz fs]. cbn in H. subst im.
    destruct fs;
      try (rewrite velocity_callback_other in E by (cbn; congruence);
           inversion E; reflexivity).
    rewrite velocity_callback_landing in E.
    destruct (landed env); inversion E; reflexivity.
  - rewrite state_callback_not_in_mission in E by exact H.
    inversion E; subst; exact H.
Qed.

(** C5.  From a state in which [in_mission] is false, after any stream
    of events [in_mission] is still false, and a status event delivered
    then (with any telemetry) returns the controller unchanged, flight
    state included, and issues no command. *)
Theorem in_mission_false_is_permanent (s : BackyardFlyer) :
  in_mission s = false ->
  forall (evs : list Event) (env : Telemetry),
  exists visited s' out,
    run evs s = Returned visited s' out
    /\ in_mission s' = false
    /\ state_callback env s' = Returned tt s' []
    /\ notify (STATE, env) s' = Returned tt s' [].
Proof.
  intros H evs env. revert s H.
  induction evs as [|ev rest IH]; intros s H; cbn [run].
  - exists [flight_state s], s, []. repeat split; trivial;
      apply state_callback_not_in_mission; exact H.
  - destruct (notify_returns ev s) as (s1 & o1 & E). rewrite E.
    destruct (IH s1 (notify_keeps_not_in_mission _ _ _ _ H E))
      as (vis & s2 & o2 & R & I & C & N).
    rewrite R. exists (flight_state s :: vis), s2, (o1 ++ o2). auto.
Qed.

Lemma in_mission_false_is_permanent_witness :
  exists visited s' out,
    run [(STATE, env_still_aloft); (LOCAL_POSITION, env_still_aloft)] finished
      = Returned visited s' out
    /\ in_mission s' = false
    /\ state_callback env_fast_on_ground s' = Returned tt s' []
    /\ notify (STATE, env_fast_on_ground) s' = Returned tt s' [].
Proof.
  apply (in_mission_false_is_permanent finished). reflexivity.
Defined.

(** ** The waypoint queue is never popped when empty *)

(** C6.  [pop(0)] raises exactly on the empty queue, yet
    [waypoint_transition] returns in every state, and so does every
    handler on every stream of events from every state: the pop is only
    run behind the emptiness test, and its error branch is never taken. *)
Theorem pop_from_empty_unreachable :
  (forall env s,
      all_waypoints_pop_0 env s = Raised IndexError <-> all_waypoints s = [])
  /\ (forall env s, exists s' out,
        waypoint_transition env s = Returned tt s' out
        /\ (all_waypoints s <> [] ->
            all_waypoints s = target_position s' :: all_waypoints s'))
  /\ (forall evs s, exists visited s' out,
        run evs s = Returned visited s' out).
Proof.
  split; [|split].
  - intros env [tp [|w rest] im sz fs]; cbn; split; intros H;
      try reflexivity; discriminate H.
  - intros env [tp [|w rest] im sz fs].
    + rewrite waypoint_transition_empty.
      destruct (norm_01_lt_1 _); do 2 eexists; split;
        try reflexivity; intros H; now contradiction H.
    + rewrite waypoint_transition_pop. do 2 eexists.
      split; reflexivity.
  - intros evs s. apply run_returns.
Qed.

(** ** The full mission *)

Lemma phase_flight_state k s :
  phase k s -> nth_error mission_sequence k = Some (flight_state s).
Proof.
  do 10 (destruct k as [|k]; [cbn; intros H; decompose [and] H;
                              congruence|]).
  intros [].
Qed.

Lemma phase_in_mission k s :
  phase k s -> in_mission s = (k <? 9)%nat.
Proof.
  do 10 (destruct k as [|k]; [cbn; intros H; decompose [and] H;
                              congruence|]).
  intros [].
Qed.

Ltac list_of_length :=
  repeat match goal with
  | H : length ?l = 0%nat |- _ =>
      destruct l; [clear H | discriminate H]
  | H : length ?l = S _ |- _ =>
      destruct l; [discriminate H | cbn [length] in H; apply eq_add_S in H]
  end.

Lemma phase_step k ev s :
  phase k s -> guard ev s = true ->
  (k < 9)%nat
  /\ exists s' out, notify ev s = Returned tt s' out /\ phase (S k) s'.
Proof.
  intros P G.
  destruct ev as [m env]. destruct s as [tp l im sz fs].
  unfold guard in G. cbn [fst snd flight_state in_mission all_waypoints] in G.
  unfold notify, callback; cbn [fst snd].
  destruct k as [|[|[|[|[|[|[|[|[|[|k]]]]]]]]]]; cbn in P;
    try contradiction;
    decompose [and] P; subst; clear P;
    list_of_length; destruct m; try discriminate G; (split; [lia|]).
  - rewrite state_callback_in_mission. do 2 eexists. split; [reflexivity|].
    cbn. auto.
  - rewrite state_callback_in_mission. do 2 eexists. split; [reflexivity|].
    cbn. auto.
  - rewrite local_position_callback_takeoff by exact G.
    unfold calculate_box. rewrite waypoint_transition_pop.
    do 2 eexists. split; [reflexivity|]. cbn. auto.
  - apply andb_true_iff in G. destruct G as [R _].
    rewrite local_position_callback_waypoint by exact R.
    rewrite waypoint_transition_pop.
    do 2 eexists. split; [reflexivity|]. cbn. auto.
  - apply andb_true_iff in G. destruct G as [R _].
    rewrite local_position_callback_waypoint by exact R.
    rewrite waypoint_transition_pop.
    do 2 eexists. split; [reflexivity|]. cbn. auto.
  - apply andb_true_iff in G. destruct G as [R _].
    rewrite local_position_callback_waypoint by exact R.
    rewrite waypoint_transition_pop.
    do 2 eexists. split; [reflexivity|]. cbn. auto.
  - apply andb_true_iff in G. destruct G as [R V]. cbn in V.
    rewrite local_position_callback_waypoint by exact R.
    rewrite waypoint_transition_empty, V.
    do 2 eexists. split; [reflexivity|]. cbn. auto.
  - rewrite velocity_callback_landing, G.
    do 2 eexists. split; [reflexivity|]. cbn. auto.
  - rewrite state_callback_in_mission. do 2 eexists. split; [reflexivity|].
    cbn. auto.
Qed.

Lemma skipn_nth_error {A} (l : list A) : forall k x,
  nth_error l k = Some x -> skipn k l = x :: skipn (S k) l.
Proof.
  induction l as [|a l IH]; intros [|k] x H; try discriminate H.
  - inversion H. reflexivity.
  - cbn in H. rewrite (skipn_cons k a l). apply IH. exact H.
Qed.

Lemma mission_from_phase (evs : list Event) : forall k s,
  phase k s -> guards_in_order evs s = true ->
  exists s' out,
    run evs s
      = Returned (firstn (S (length evs)) (skipn k mission_sequence)) s' out
    /\ phase (k + length evs) s'.
Proof.
  induction evs as [|ev rest IH]; intros k s P G.
  - exists s, []. rewrite (skipn_nth_error _ _ _ (phase_flight_state _ _ P)).
    rewrite Nat.add_0_r. split; [reflexivity | exact P].
  - cbn [guards_in_order] in G. apply andb_true_iff in G.
    destruct G as [G1 G2].
    destruct (phase_step _ _ _ P G1) as (_ & s1 & o1 & E & P1).
    rewrite E in G2. destruct (IH _ _ P1 G2) as (s2 & o2 & R & P2).
    exists s2, (o1 ++ o2). cbn [run length]. rewrite E, R. split.
    + rewrite (skipn_nth_error _ _ _ (phase_flight_state _ _ P)).
      reflexivity.
    + rewrite Nat.add_succ_r. exact P2.
Qed.

Lemma phase_le k s : phase k s -> (k <= 9)%nat.
Proof.
  intros P. destruct (Nat.le_gt_cases k 9) as [L|L]; [exact L|].
  do 10 (destruct k as [|k]; [lia|]). destruct P.
Qed.

(** C1, as stated, fails.  The stream [hover_events] has nine events
    that meet, in order, the guards of the nine rows of the transition
    table as the specification words them; its velocity event meets the
    specified landing guard (no altitude gap, no vertical speed) with the
    local position 5 cm above the origin.  The controller stays in
    [LANDING]: it visits MANUAL, ARMING, TAKEOFF, four times WAYPOINT and
    three times LANDING, never issues [disarm], and [in_mission] is still
    true at the end. *)
Lemma specified_guards_do_not_finish_the_mission :
  length hover_events = 9%nat
  /\ rows_as_specified_in_order 0 hover_events init = true
  /\ run hover_events init
     = Returned
         [MANUAL; ARMING; TAKEOFF; WAYPOINT; WAYPOINT; WAYPOINT; WAYPOINT;
          LANDING; LANDING; LANDING]
         (state_at 7)
         (firstn 9 (mission_commands (mkVec3 0 0 0)))
  /\ in_mission (state_at 7) = true
  /\ flight_state (state_at 7) = LANDING.
Proof. repeat split. Qed.

(** C1, amended.  The guards are those the code tests ([guard]); the
    landing guard is [landed]: global altitude less than 0.1 above home
    and magnitude of component 2 of the local position below 0.01.
    Take any stream of events, each of which meets its guard when
    it is delivered, and a controller as created by [__init__] ([MANUAL],
    [in_mission] true).  The stream has at most 9 events; the flight
    states visited are the first [length evs + 1] entries of
    MANUAL, ARMING, TAKEOFF, WAYPOINT, WAYPOINT, WAYPOINT, WAYPOINT,
    LANDING, DISARMING, MANUAL; and with all 9 events the whole sequence
    is visited and [in_mission] is false at the end (it is true before). *)
Theorem full_mission (evs : list Event) :
  guards_in_order evs init = true ->
  (length evs <= 9)%nat
  /\ exists s out,
       run evs init
         = Returned (firstn (S (length evs)) mission_sequence) s out
       /\ in_mission s = (length evs <? 9)%nat
       /\ (length evs = 9%nat ->
           run evs init = Returned mission_sequence s out
           /\ in_mission s = false).
Proof.
  intros G.
  assert (P0 : phase 0 init) by (split; reflexivity).
  destruct (mission_from_phase evs _ _ P0 G) as (s & out & R & P).
  cbn [Nat.add skipn] in R, P.
  split; [exact (phase_le _ _ P)|].
  exists s, out. split; [exact R|]. split; [exact (phase_in_mission _ _ P)|].
  intros L. rewrite L in R, P. split; [exact R | apply P].
Qed.

Lemma full_mission_witness :
  guards_in_order mission_events init = true
  /\ exists s out,
       run mission_events init = Returned mission_sequence s out
       /\ in_mission s = false.
Proof.
  assert (G : guards_in_order mission_events init = true) by reflexivity.
  split; [exact G|].
  destruct (full_mission mission_events G) as (_ & s & out & _ & _ & F).
  exists s, out. apply F. reflexivity.
Defined.

(** ** Reachable states *)

Lemma positions_commanded_app (o1 o2 : list Command) :
  positions_commanded (o1 ++ o2)
  = positions_commanded o1 ++ positions_commanded o2.
Proof.
  induction o1 as [|c o1 IH]; [reflexivity|].
  destruct c; cbn; rewrite ?IH; reflexivity.
Qed.

Lemma mission_inv_init : mission_inv init [].
Proof.
  split; [reflexivity|]. split; [discriminate|]. split; [constructor|].
  left. repeat split.
Qed.

Lemma mission_inv_pop w rest sz sent :
  sz = 10 ->
  Forall (fun c => snd c = 0%Z) sent ->
  map fst sent ++ w :: rest = plan ->
  mission_inv (mkBackyardFlyer w rest true sz WAYPOINT)
    (sent ++ positions_commanded [cmd_position (v0 w) (v1 w) (v2 w) 0]).
Proof.
  intros Hsz Hh Hp.
  cbn [positions_commanded]. rewrite eta_Vec3.
  split; [exact Hsz|]. split; [discriminate|]. split.
  - apply Forall_app. split; [exact Hh | repeat constructor].
  - cbn [flight_state all_waypoints target_position].
    rewrite map_app. cbn [map fst]. rewrite <- app_assoc. cbn [app].
    split; [exact Hp|]. split.
    + intros E. apply app_eq_nil in E. destruct E as [_ E]. discriminate E.
    + apply last_last.
Qed.

Lemma in_mission_unless_manual im fs :
  (im = false -> fs = MANUAL) -> fs <> MANUAL -> im = true.
Proof. destruct im; [reflexivity|]. intros H N. now contradiction N; auto. Qed.

Lemma notify_mission_inv ev s sent s' out :
  mission_inv s sent -> notify ev s = Returned tt s' out ->
  mission_inv s' (sent ++ positions_commanded out).
Proof.
  intros I E. destruct (guard ev s) eqn:G.
  2:{ rewrite (notify_guard_false _ _ G) in E. inversion E; subst.
      cbn. rewrite app_nil_r. exact I. }
  destruct ev as [m env]. destruct s as [tp l im sz fs].
  destruct I as (Hsz & Him & Hh & I). cbn [square_size] in Hsz.
  cbn [in_mission flight_state] in Him.
  unfold guard in G. cbn [fst snd flight_state in_mission all_waypoints] in G.
  unfold notify, callback in E; cbn [fst snd] in E.
  cbn [flight_state in_mission all_waypoints target_position] in I.
  destruct m, fs; try discriminate G;
    try (assert (im = true)
           by (apply (in_mission_unless_manual _ _ Him); discriminate);
         subst im; clear Him).
  - (* TAKEOFF, position reached *)
    destruct I as (Ht & Hl & Hp). subst tp l.
    rewrite local_position_callback_takeoff in E by exact G.
    subst sz. unfold calculate_box in E.
    rewrite waypoint_transition_pop in E. inversion E; subst; clear E.
    apply mission_inv_pop; trivial.
    rewrite Hp. reflexivity.
  - (* WAYPOINT, position reached *)
    apply andb_true_iff in G. destruct G as [R V].
    rewrite local_position_callback_waypoint in E by exact R.
    destruct I as (Hp & Hn & Hl).
    destruct l as [|w rest].
    + cbn in V. rewrite waypoint_transition_empty, V in E.
      inversion E; subst; clear E. cbn. rewrite !app_nil_r in *.
      split; [reflexivity|]. split; [discriminate|].
      split; [exact Hh|]. cbn. auto.
    + rewrite waypoint_transition_pop in E. inversion E; subst; clear E.
      apply mission_inv_pop; trivial.
  - (* LANDING, landed *)
    rewrite velocity_callback_landing, G in E. inversion E; subst; clear E.
    cbn. rewrite app_nil_r. split; [reflexivity|]. split; [discriminate|].
    split; [exact Hh|]. exact I.
  - (* MANUAL, in mission *)
    subst im. rewrite state_callback_in_mission in E.
    inversion E; subst; clear E. cbn. rewrite app_nil_r.
    split; [reflexivity|]. split; [discriminate|]. split; [exact Hh|].
    destruct I as [(_ & I)|(I & _)]; [exact I | discriminate I].
  - (* ARMING, in mission *)
    rewrite state_callback_in_mission in E.
    inversion E; subst; clear E. cbn. rewrite app_nil_r.
    split; [reflexivity|]. split; [discriminate|]. split; [exact Hh|].
    destruct I as (Ht & Hl & Hp). subst tp. cbn. auto.
  - (* DISARMING, in mission *)
    rewrite state_callback_in_mission in E.
    inversion E; subst; clear E. cbn. rewrite app_nil_r.
    split; [reflexivity|]. split; [reflexivity|]. split; [exact Hh|].
    right. tauto.
Qed.

Lemma run_mission_inv (evs : list Event) : forall s sent,
  mission_inv s sent ->
  exists visited s' out,
    run evs s = Returned visited s' out
    /\ mission_inv s' (sent ++ positions_commanded out).
Proof.
  induction evs as [|ev rest IH]; intros s sent I; cbn [run].
  - exists [flight_state s], s, []. cbn. rewrite app_nil_r. auto.
  - destruct (notify_returns ev s) as (s1 & o1 & E). rewrite E.
    destruct (IH _ _ (notify_mission_inv _ _ _ _ _ I E)) as (vis & s2 & o2 & R & I2).
    rewrite R. exists (flight_state s :: vis), s2, (o1 ++ o2).
    split; [reflexivity|].
    rewrite positions_commanded_app, app_assoc. exact I2.
Qed.

Lemma reachable_mission_inv (evs : list Event) :
  exists visited s out,
    run evs init = Returned visited s out
    /\ mission_inv s (positions_commanded out).
Proof. apply (run_mission_inv evs init [] mission_inv_init). Qed.


(** ** The transition out of [TAKEOFF] *)

(** C9, as stated, fails.  After a position event that finds the
    controller in [TAKEOFF] at its target, the queue is not the
    planner's result: it holds three points, the planner returns four. *)
Lemma takeoff_reached_queue_is_not_plan :
  position_reached (snapshot 0 0 (-3)) takeoff_state = true
  /\ local_position_callback (snapshot 0 0 (-3)) takeoff_state
     = Returned tt
         (mkBackyardFlyer (mkVec3 10 0 3)
            [mkVec3 10 10 3; mkVec3 0 10 3; mkVec3 0 0 3] true 10 WAYPOINT)
         [cmd_position 10 0 3 0]
  /\ calculate_box (target_position takeoff_state) 10
     = [mkVec3 10 0 3; mkVec3 10 10 3; mkVec3 0 10 3; mkVec3 0 0 3]
  /\ [mkVec3 10 10 3; mkVec3 0 10 3; mkVec3 0 0 3]
     <> calculate_box (target_position takeoff_state) 10.
Proof. repeat split. discriminate. Qed.

(** C9, amended.  On a position event in [TAKEOFF] with the current
    position within tolerance of the target, the handler runs the planner
    on the target with edge [square_size] = 10, stores its result as the
    queue, sets the state to [WAYPOINT] and at once runs the waypoint
    transition: the planner's first point becomes the target and is
    commanded with heading 0, the other three points, in order, are the
    queue, and the state is [WAYPOINT]. *)
Theorem takeoff_reached_plans_and_starts (env : Telemetry) (s : BackyardFlyer) :
  flight_state s = TAKEOFF ->
  square_size s = 10 ->
  position_reached env s = true ->
  let box := calculate_box (target_position s) 10 in
  local_position_callback env s
  = waypoint_transition env
      (with_flight_state (with_all_waypoints s box) WAYPOINT)
  /\ exists w1 w2 w3 w4,
       box = [w1; w2; w3; w4]
       /\ local_position_callback env s
          = Returned tt
              (mkBackyardFlyer w1 [w2; w3; w4] (in_mission s) 10 WAYPOINT)
              [cmd_position (v0 w1) (v1 w1) (v2 w1) 0].
Proof.
  intros F Hsz R box. destruct s as [tp l im sz fs].
  cbn [flight_state square_size] in F, Hsz. subst fs sz.
  rewrite local_position_callback_takeoff by exact R.
  split; [reflexivity|].
  subst box. unfold calculate_box. cbn [target_position in_mission].
  do 4 eexists. split; [reflexivity|]. apply waypoint_transition_pop.
Qed.

Lemma takeoff_reached_plans_and_starts_witness :
  local_position_callback (snapshot 0 0 (-3)) takeoff_state
  = waypoint_transition (snapshot 0 0 (-3))
      (with_flight_state
         (with_all_waypoints takeoff_state
            (calculate_box (target_position takeoff_state) 10)) WAYPOINT).
Proof.
  apply (takeoff_reached_plans_and_starts (snapshot 0 0 (-3)) takeoff_state);
    reflexivity.
Defined.

(** ** The take-off target *)

(** C10.  [takeoff_transition] replaces component 2 of the target by 3
    and keeps components 0 and 1 (besides commanding the take-off and
    entering [TAKEOFF]).  In every execution from [init] the target is
    (0,0,0) in [ARMING] and (0,0,3) in [TAKEOFF], and a position event
    that leaves [TAKEOFF] runs the planner on (0,0,3) with size 10. *)
Theorem takeoff_target_is_0_0_3 :
  (forall env tp l im sz fs,
      takeoff_transition env (mkBackyardFlyer tp l im sz fs)
      = Returned tt
          (mkBackyardFlyer (mkVec3 (v0 tp) (v1 tp) 3) l im sz TAKEOFF)
          [takeoff 3])
  /\ (forall evs : list Event, exists visited s out,
        run evs init = Returned visited s out
        /\ (flight_state s = ARMING -> target_position s = mkVec3 0 0 0)
        /\ (flight_state s = TAKEOFF ->
            target_position s = mkVec3 0 0 3
            /\ forall env, position_reached env s = true ->
                 local_position_callback env s
                 = waypoint_transition env
                     (mkBackyardFlyer (mkVec3 0 0 3)
                        (calculate_box (mkVec3 0 0 3) 10)
                        (in_mission s) 10 WAYPOINT))).
Proof.
  split; [reflexivity|].
  intros evs. destruct (reachable_mission_inv evs) as (vis & s & out & R & I).
  exists vis, s, out. split; [exact R|].
  destruct I as (Hsz & _ & _ & I). cbn zeta in I.
  destruct s as [tp l im sz fs]. cbn [flight_state target_position
                                       square_size in_mission] in *.
  split; intros F; subst fs.
  - apply I.
  - destruct I as (Ht & _). split; [exact Ht|].
    intros env P. subst tp sz.
    apply local_position_callback_takeoff. exact P.
Qed.

(** * Further properties of the handlers and of whole executions *)

(** ** An event makes a transition or does nothing *)

Lemma notify_guard_true ev s :
  guard ev s = true ->
  exists s' out, notify ev s = Returned tt s' out /\ s' <> s /\ out <> [].
Proof.
  destruct ev as [m env]. destruct s as [tp l im sz fs].
  unfold guard, notify, callback.
  cbn [fst snd flight_state in_mission all_waypoints]. intros G.
  destruct m, fs; try discriminate G.
  - rewrite local_position_callback_takeoff by exact G.
    unfold calculate_box. rewrite waypoint_transition_pop.
    do 2 eexists. split; [reflexivity|]. split; intros E; discriminate E.
  - apply andb_true_iff in G. destruct G as [R V].
    rewrite local_position_callback_waypoint by exact R.
    destruct l as [|w rest].
    + cbn in V. rewrite waypoint_transition_empty, V.
      do 2 eexists. split; [reflexivity|]. split; intros E; discriminate E.
    + rewrite waypoint_transition_pop.
      do 2 eexists. split; [reflexivity|]. split; intros E.
      * apply (f_equal (fun x => length (all_waypoints x))) in E.
        cbn in E. lia.
      * discriminate E.
  - rewrite velocity_callback_landing, G.
    do 2 eexists. split; [reflexivity|]. split; intros E; discriminate E.
  - subst im. rewrite state_callback_in_mission.
    do 2 eexists. split; [reflexivity|]. split; intros E; discriminate E.
  - subst im. rewrite state_callback_in_mission.
    do 2 eexists. split; [reflexivity|]. split; intros E; discriminate E.
  - subst im. rewrite state_callback_in_mission.
    do 2 eexists. split; [reflexivity|]. split; intros E; discriminate E.
Qed.

(** X1.  Whatever the controller and the event, the handler returns,
    and either the event meets its guard, the controller changes and at
    least one command is issued, or the guard fails, the controller is
    left exactly as it was and no command is issued.  No handler changes
    the controller silently, and none issues a command without changing
    the controller. *)
Theorem event_fires_or_is_noop (ev : Event) (s : BackyardFlyer) :
  exists s' out,
    notify ev s = Returned tt s' out
    /\ (guard ev s = true <-> s' <> s)
    /\ (guard ev s = true <-> out <> [])
    /\ (guard ev s = false <-> s' = s /\ out = []).
Proof.
  destruct (guard ev s) eqn:G.
  - destruct (notify_guard_true ev s G) as (s' & out & E & Hs & Ho).
    exists s', out. split; [exact E|].
    split; [tauto|]. split; [tauto|].
    split; [discriminate | intros [K _]; contradiction].
  - exists s, []. split; [apply notify_guard_false; exact G|].
    split; [|split; [|tauto]];
      (split; [discriminate | intros K; now contradiction K]).
Qed.

(** ** The ten reachable controllers and the command log *)

Lemma notify_state_at (k : nat) (ev : Event) :
  (k <= 9)%nat -> guard ev (state_at k) = true ->
  (k < 9)%nat
  /\ exists o,
       notify ev (state_at k) = Returned tt (state_at (S k)) o
       /\ forall h, (k = 0%nat -> h = global_position (snd ev)) ->
            firstn (commands_after k) (mission_commands h) ++ o
            = firstn (commands_after (S k)) (mission_commands h).
Proof.
  intros L G. destruct ev as [m env].
  unfold guard in G. unfold notify, callback. cbn [fst snd] in *.
  destruct k as [|[|[|[|[|[|[|[|[|[|k]]]]]]]]]]; try lia;
    cbn [state_at flight_state in_mission all_waypoints] in *;
    destruct m; try discriminate G; (split; [lia|]).
  - rewrite state_callback_in_mission. eexists. split; [reflexivity|].
    intros h Hh. rewrite (Hh eq_refl). reflexivity.
  - rewrite state_callback_in_mission. eexists. split; [reflexivity|].
    intros h _. reflexivity.
  - rewrite local_position_callback_takeoff by exact G.
    eexists. split; [reflexivity|]. intros h _. reflexivity.
  - apply andb_true_iff in G. destruct G as [R _].
    rewrite local_position_callback_waypoint by exact R.
    eexists. split; [reflexivity|]. intros h _. reflexivity.
  - apply andb_true_iff in G. destruct G as [R _].
    rewrite local_position_callback_waypoint by exact R.
    eexists. split; [reflexivity|]. intros h _. reflexivity.
  - apply andb_true_iff in G. destruct G as [R _].
    rewrite local_position_callback_waypoint by exact R.
    eexists. split; [reflexivity|]. intros h _. reflexivity.
  - apply andb_true_iff in G. destruct G as [R V]. cbn in V.
    rewrite local_position_callback_waypoint by exact R.
    rewrite waypoint_transition_empty, V.
    eexists. split; [reflexivity|]. intros h _. reflexivity.
  - rewrite velocity_callback_landing, G.
    eexists. split; [reflexivity|]. intros h _. reflexivity.
  - rewrite state_callback_in_mission. eexists. split; [reflexivity|].
    intros h _. reflexivity.
Qed.

Lemma run_state_at (evs : list Event) (h : Vec3) : forall k,
  (1 <= k <= 9)%nat ->
  let n := (k + fired evs (state_at k))%nat in
  (n <= 9)%nat
  /\ exists visited out,
       run evs (state_at k) = Returned visited (state_at n) out
       /\ firstn (commands_after k) (mission_commands h) ++ out
          = firstn (commands_after n) (mission_commands h).
Proof.
  induction evs as [|ev rest IH]; intros k K; cbn [fired run].
  - rewrite Nat.add_0_r. split; [lia|]. do 2 eexists.
    split; [reflexivity|]. apply app_nil_r.
  - destruct (guard ev (state_at k)) eqn:G.
    + destruct (notify_state_at k ev) as (L & o & E & C); [lia|exact G|].
      rewrite E. destruct (IH (S k)) as (N & vis & out & R & C'); [lia|].
      replace (k + (1 + fired rest (state_at (S k))))%nat
        with (S k + fired rest (state_at (S k)))%nat by lia.
      split; [exact N|]. rewrite R. do 2 eexists. split; [reflexivity|].
      rewrite app_assoc, C by lia. exact C'.
    + rewrite (notify_guard_false _ _ G).
      destruct (IH k K) as (N & vis & out & R & C').
      split; [exact N|]. rewrite R. do 2 eexists. split; [reflexivity|].
      exact C'.
Qed.

Lemma run_from_init (evs : list Event) :
  let n := fired evs init in
  (n <= 9)%nat
  /\ exists visited,
       run evs init
       = Returned visited (state_at n)
           (firstn (commands_after n) (mission_commands (home_of evs))).
Proof.
  induction evs as [|ev rest IH]; cbn [fired run].
  - split; [lia|]. eexists. reflexivity.
  - destruct (guard ev init) eqn:G.
    + destruct (notify_state_at 0 ev) as (_ & o & E & C); [lia|exact G|].
      change (state_at 0) with init in E. rewrite E.
      assert (H : home_of (ev :: rest) = global_position (snd ev)).
      { destruct ev as [[] env]; try discriminate G. reflexivity. }
      rewrite H.
      destruct (run_state_at rest (global_position (snd ev)) 1)
        as (N & vis & out & R & C'); [lia|].
      split; [exact N|]. rewrite R. eexists. rewrite <- C'.
      specialize (C (global_position (snd ev)) (fun _ => eq_refl)).
      change (firstn (commands_after 0)
                (mission_commands (global_position (snd ev))) ++ o)
        with o in C.
      rewrite C. reflexivity.
    + rewrite (notify_guard_false _ _ G).
      destruct IH as (N & vis & R). split; [exact N|].
      rewrite R. eexists.
      assert (H : home_of (ev :: rest) = home_of rest).
      { destruct ev as [[] env]; try reflexivity. discriminate G. }
      rewrite H. reflexivity.
Qed.

(** X2.  The controllers reachable from [init] are exactly the ten
    [state_at 0] ... [state_at 9]: after any stream of events the
    controller is [state_at k], where [k <= 9] is the number of events of
    the stream that met their guard; and each [state_at k] with [k <= 9]
    is reached, by the first [k] events of [mission_events]. *)
Theorem reachable_states_are_state_at :
  (forall evs : list Event, exists visited out,
      (fired evs init <= 9)%nat
      /\ run evs init = Returned visited (state_at (fired evs init)) out)
  /\ (forall k, (k <= 9)%nat -> exists visited out,
        run (firstn k mission_events) init
        = Returned visited (state_at k) out).
Proof.
  split.
  - intros evs. destruct (run_from_init evs) as (N & vis & R).
    do 2 eexists. split; [exact N | exact R].
  - intros k K.
    destruct k as [|[|[|[|[|[|[|[|[|[|k]]]]]]]]]]; try lia;
      do 2 eexists; reflexivity.
Qed.

(** X3.  After any stream of events delivered to a controller created by
    [__init__], the commands issued so far are an initial segment of
    take_control, arm, set_home_position(home), takeoff(3),
    cmd_position(10,0,3,0), cmd_position(10,10,3,0),
    cmd_position(0,10,3,0), cmd_position(0,0,3,0), land, disarm,
    release_control, stop, where home is the global position carried by
    the first status event; its length is fixed by the number of events
    that met their guard.  So every command is issued at most once and
    in this order. *)
Theorem commands_follow_the_mission (evs : list Event) :
  exists visited s,
    run evs init
    = Returned visited s
        (firstn (commands_after (fired evs init))
                (mission_commands (home_of evs))).
Proof.
  destruct (run_from_init evs) as (_ & vis & R). eauto.
Qed.

(** ** Waypoints are flown in the planner's order *)

Lemma fired_guards_in_order (evs : list Event) : forall s,
  guards_in_order evs s = true -> fired evs s = length evs.
Proof.
  induction evs as [|ev rest IH]; intros s G; [reflexivity|].
  cbn [guards_in_order] in G. apply andb_true_iff in G.
  destruct G as [G1 G2]. cbn [fired length]. rewrite G1.
  destruct (notify ev s) as [u s1 o|e]; [|discriminate G2].
  rewrite (IH s1 G2). reflexivity.
Qed.

Lemma popped_after_fired (evs : list Event) :
  exists visited s out,
    run evs init = Returned visited s out
    /\ positions_commanded out
       = map (fun p => (p, 0%Z))
             (firstn (fired evs init - 2) (calculate_box (mkVec3 0 0 3) 10))
    /\ all_waypoints s
       = (if (fired evs init <? 3)%nat then []
          else skipn (fired evs init - 2)
                     (calculate_box (mkVec3 0 0 3) 10))
    /\ ((3 <= fired evs init)%nat ->
        target_position s
        = last (firstn (fired evs init - 2)
                       (calculate_box (mkVec3 0 0 3) 10))
               (mkVec3 0 0 0)).
Proof.
  destruct (run_from_init evs) as (N & vis & R). cbn zeta in N, R.
  exists vis, (state_at (fired evs init)),
    (firstn (commands_after (fired evs init))
            (mission_commands (home_of evs))).
  split; [exact R|]. clear R.
  generalize (home_of evs). intros h.
  set (k := fired evs init) in *. clearbody k.
  destruct k as [|[|[|[|[|[|[|[|[|[|k]]]]]]]]]]; try lia;
    (split; [reflexivity|]); (split; [reflexivity|]);
    intros L; try lia; reflexivity.
Qed.

(** C7.  A waypoint transition on a non-empty queue takes the front of
    the queue as the new target and commands it with heading 0, leaving
    the rest of the queue in place.  In every execution from [init] all
    positional commands have heading 0, and the positions commanded so
    far, followed by the queue, are the planner's output for start
    (0,0,3) and size 10 (or nothing has been planned, commanded or queued
    yet); the target is the last position popped; and from [LANDING] on
    the positions commanded are the planner's whole output.  More
    precisely, after a stream of which [k] events met their guard, the
    positions commanded are exactly the first [k - 2] points of the
    planner's output (none for [k <= 2], all four for [k >= 6]), each
    with heading 0, and from [k = 3] on the queue holds the remaining
    points and the target is the last point commanded.  Hence every
    stream whose events all meet their guards and that has at least six
    events has commanded the planner's whole output, in the planner's
    order, and emptied the queue; [mission_events] is such a stream. *)
Theorem waypoints_consumed_in_order :
  (forall env tp w rest im sz fs,
      waypoint_transition env (mkBackyardFlyer tp (w :: rest) im sz fs)
      = Returned tt (mkBackyardFlyer w rest im sz fs)
                 [cmd_position (v0 w) (v1 w) (v2 w) 0])
  /\ (forall evs : list Event, exists visited s out,
        run evs init = Returned visited s out
        /\ let sent := positions_commanded out in
           let popped := map fst sent in
           Forall (fun c => snd c = 0%Z) sent
           /\ ((popped = [] /\ all_waypoints s = [])
               \/ (popped ++ all_waypoints s
                     = calculate_box (mkVec3 0 0 3) 10
                   /\ last popped (mkVec3 0 0 0) = target_position s))
           /\ (flight_state s = LANDING \/ flight_state s = DISARMING
               \/ in_mission s = false ->
               popped = calculate_box (mkVec3 0 0 3) 10))
  /\ (forall evs : list Event, exists visited s out,
        run evs init = Returned visited s out
        /\ let k := fired evs init in
           let box := calculate_box (mkVec3 0 0 3) 10 in
           positions_commanded out
           = map (fun p => (p, 0%Z)) (firstn (k - 2) box)
           /\ all_waypoints s
              = (if (k <? 3)%nat then [] else skipn (k - 2) box)
           /\ ((3 <= k)%nat ->
               target_position s = last (firstn (k - 2) box) (mkVec3 0 0 0)))
  /\ (forall evs : list Event,
        guards_in_order evs init = true -> (6 <= length evs)%nat ->
        exists visited s out,
          run evs init = Returned visited s out
          /\ positions_commanded out
             = map (fun p => (p, 0%Z)) (calculate_box (mkVec3 0 0 3) 10)
          /\ all_waypoints s = [])
  /\ (guards_in_order mission_events init = true
      /\ (6 <= length mission_events)%nat).
Proof.
  split; [intros; apply waypoint_transition_pop|].
  split; [|split; [|split]].
  - intros evs.
    destruct (reachable_mission_inv evs) as (vis & s & out & R & I).
    exists vis, s, out. split; [exact R|]. cbn zeta.
    destruct I as (_ & Him & Hh & I). split; [exact Hh|]. fold plan.
    cbn zeta in I.
    destruct (flight_state s); split;
      try (intros [F|[F|F]]; try discriminate F;
           try (apply Him in F; discriminate F)).
    + destruct I as [(_ & _ & Hl & Hp)|(_ & Hl & Hp & Ht)].
      * left. auto.
      * right. rewrite Hl, app_nil_r. auto.
    + destruct I as [(Hi & _)|(_ & _ & Hp & _)]; [congruence | exact Hp].
    + left. tauto.
    + left. tauto.
    + right. tauto.
    + right. destruct I as (Hl & Hp & Ht). rewrite Hl, app_nil_r. auto.
    + apply I.
    + right. destruct I as (Hl & Hp & Ht). rewrite Hl, app_nil_r. auto.
    + apply I.
  - intros evs. exact (popped_after_fired evs).
  - intros evs G L.
    destruct (popped_after_fired evs) as (vis & s & out & R & P & Q & _).
    rewrite (fired_guards_in_order evs init G) in P, Q.
    destruct (run_from_init evs) as (N & _). cbn zeta in N.
    rewrite (fired_guards_in_order evs init G) in N.
    exists vis, s, out. split; [exact R|].
    remember (length evs) as k eqn:K. clear K.
    destruct k as [|[|[|[|[|[|[|[|[|[|k]]]]]]]]]]; try lia;
      split; assumption.
  - split; [reflexivity | cbn; lia].
Qed.

Lemma waypoints_consumed_in_order_witness :
  exists visited s out,
    run mission_events init = Returned visited s out
    /\ positions_commanded out
       = map (fun p => (p, 0%Z)) (calculate_box (mkVec3 0 0 3) 10)
    /\ all_waypoints s = [].
Proof.
  apply waypoints_consumed_in_order; [reflexivity | cbn; lia].
Defined.

(** ** After the mission *)

(** X4.  Once the controller is back in [MANUAL] with [in_mission]
    false, every event of every kind, whatever its telemetry, leaves it
    exactly as it is and issues no command: the mission never restarts. *)
Theorem finished_is_final (s : BackyardFlyer) (evs : list Event) :
  flight_state s = MANUAL -> in_mission s = false ->
  run evs s = Returned (repeat MANUAL (S (length evs))) s [].
Proof.
  intros F I. induction evs as [|ev rest IH]; cbn [run length repeat].
  - rewrite F. reflexivity.
  - assert (G : guard ev s = false).
    { destruct ev as [[] env]; unfold guard; cbn [fst snd];
        rewrite F; trivial. }
    rewrite (notify_guard_false _ _ G), IH, F. reflexivity.
Qed.

Lemma finished_is_final_witness :
  run mission_events finished = Returned (repeat MANUAL 10) finished [].
Proof.
  apply (finished_is_final finished mission_events); reflexivity.
Defined.

(** ** The mission can always be completed *)

Lemma position_reached_iff env s :
  position_reached env s = true <->
  Qabs (v0 (local_position env) - v0 (target_position s)) <= 1 # 4
  /\ Qabs (v1 (local_position env) - v1 (target_position s)) <= 1 # 4
  /\ Qabs (- v2 (local_position env) - v2 (target_position s)) <= 1 # 4.
Proof.
  unfold position_reached, allclose.
  rewrite !andb_true_iff, !within_tol_abs.
  unfold current_position, set2. cbn [v0 v1 v2].
  assert (E : v2 (local_position env) * -1 - v2 (target_position s)
              == - v2 (local_position env) - v2 (target_position s))
    by ring.
  rewrite E. tauto.
Qed.

Lemma Qabs_diff_self_le (x : Q) : Qabs (x - x) <= 1 # 4.
Proof.
  assert (E : x - x == 0) by ring. rewrite E. discriminate.
Qed.

Lemma position_reached_at_target tp l im sz fs :
  position_reached (snapshot (v0 tp) (v1 tp) (- v2 tp))
                   (mkBackyardFlyer tp l im sz fs) = true.
Proof.
  apply position_reached_iff.
  cbn [snapshot local_position target_position v0 v1 v2].
  split; [apply Qabs_diff_self_le|]. split; [apply Qabs_diff_self_le|].
  assert (E : - - v2 tp - v2 tp == 0) by ring. rewrite E. discriminate.
Qed.

Lemma next_event_fires (s : BackyardFlyer) :
  in_mission s = true ->
  guard (next_event s) s = true
  /\ exists s1 o,
       notify (next_event s) s = Returned tt s1 o
       /\ ((flight_state s = DISARMING
            /\ flight_state s1 = MANUAL /\ in_mission s1 = false)
           \/ (in_mission s1 = true /\ remaining s = S (remaining s1))).
Proof.
  destruct s as [tp l im sz fs]. cbn [in_mission]. intros ->.
  unfold next_event, guard, notify, callback, remaining.
  cbn [flight_state target_position all_waypoints in_mission].
  destruct fs; cbn [fst snd].
  - split; [reflexivity|]. rewrite state_callback_in_mission.
    do 2 eexists. split; [reflexivity|]. right. split; reflexivity.
  - split; [reflexivity|]. rewrite state_callback_in_mission.
    do 2 eexists. split; [reflexivity|]. right. split; reflexivity.
  - pose proof (position_reached_at_target tp l true sz TAKEOFF) as R.
    split; [exact R|].
    rewrite local_position_callback_takeoff by exact R.
    unfold calculate_box. rewrite waypoint_transition_pop.
    do 2 eexists. split; [reflexivity|]. right. split; reflexivity.
  - pose proof (position_reached_at_target tp l true sz WAYPOINT) as R.
    rewrite R. rewrite local_position_callback_waypoint by exact R.
    destruct l as [|w rest].
    + split; [reflexivity|]. rewrite waypoint_transition_empty.
      do 2 eexists. split; [reflexivity|]. right. split; reflexivity.
    + split; [reflexivity|]. rewrite waypoint_transition_pop.
      do 2 eexists. split; [reflexivity|]. right. split; reflexivity.
  - split; [reflexivity|]. rewrite velocity_callback_landing.
    do 2 eexists. split; [reflexivity|]. right. split; reflexivity.
  - split; [reflexivity|]. rewrite state_callback_in_mission.
    do 2 eexists. split; [reflexivity|]. left. repeat split.
Qed.

Lemma remaining_positive (s : BackyardFlyer) : (1 <= remaining s)%nat.
Proof. unfold remaining. destruct (flight_state s); lia. Qed.

Lemma completion_completes (n : nat) : forall s,
  in_mission s = true -> remaining s = n ->
  length (completion n s) = n
  /\ guards_in_order (completion n s) s = true
  /\ exists visited s' out,
       run (completion n s) s = Returned visited s' out
       /\ flight_state s' = MANUAL /\ in_mission s' = false.
Proof.
  induction n as [|m IH]; intros s I R.
  - pose proof (remaining_positive s). lia.
  - destruct (next_event_fires s I) as (G & s1 & o & E & [D|[I1 R1]]).
    + destruct D as (D & F1 & N1).
      assert (m = 0%nat) by (unfold remaining in R; rewrite D in R; lia).
      subst m. cbn [completion guards_in_order run length].
      rewrite G, E. split; [reflexivity|]. split; [reflexivity|].
      do 3 eexists. split; [reflexivity|]. split; assumption.
    + destruct (IH s1 I1) as (L & GO & vis & s' & out & Rn & F & N);
        [lia|].
      cbn [completion guards_in_order run length]. rewrite G, E, L, GO, Rn.
      split; [reflexivity|]. split; [reflexivity|].
      do 3 eexists. split; [reflexivity|]. split; assumption.
Qed.

(** X5.  From every controller that is in mission, whatever its flight
    state, target and queue, there is a stream of exactly [remaining s]
    events (9 from [MANUAL], 8 from [ARMING], 7 from [TAKEOFF], 3 plus the
    queue length from [WAYPOINT], 2 from [LANDING], 1 from [DISARMING]),
    each meeting its guard, that ends in [MANUAL] with [in_mission]
    false: no state of the mission is a dead end. *)
Theorem mission_can_complete (s : BackyardFlyer) :
  in_mission s = true ->
  let evs := completion (remaining s) s in
  length evs = remaining s
  /\ guards_in_order evs s = true
  /\ exists visited s' out,
       run evs s = Returned visited s' out
       /\ flight_state s' = MANUAL /\ in_mission s' = false.
Proof.
  intros I. apply completion_completes; [exact I | reflexivity].
Qed.

Lemma mission_can_complete_witness :
  length (completion (remaining init) init) = 9%nat
  /\ guards_in_order (completion (remaining init) init) init = true
  /\ exists visited s' out,
       run (completion (remaining init) init) init
       = Returned visited s' out
       /\ flight_state s' = MANUAL /\ in_mission s' = false.
Proof.
  apply (mission_can_complete init). reflexivity.
Defined.

(** ** Where the vehicle is when it is told to land *)

(** X6.  In an execution from [init], a handler issues [land] only on a
    position event delivered to [state_at 6] (all four corners commanded,
    queue empty, target (0,0,3)), with the local position within 0.25 of
    north 0, east 0 and height 3 on each axis, and with a horizontal
    speed below 1: the vehicle is told to land only above its take-off
    point. *)
Theorem land_only_above_start
    (evs : list Event) (ev : Event) (visited : list States)
    (s s' : BackyardFlyer) (out o : list Command) :
  run evs init = Returned visited s out ->
  notify ev s = Returned tt s' o ->
  In land o ->
  fst ev = LOCAL_POSITION
  /\ s = state_at 6 /\ s' = state_at 7 /\ o = [land]
  /\ out = firstn 8 (mission_commands (home_of evs))
  /\ Qabs (v0 (local_position (snd ev))) <= 1 # 4
  /\ Qabs (v1 (local_position (snd ev))) <= 1 # 4
  /\ Qabs (- v2 (local_position (snd ev)) - 3) <= 1 # 4
  /\ norm_sq_01 (local_velocity (snd ev)) < 1.
Proof.
  intros R E L.
  destruct (run_from_init evs) as (N & vis & R'). cbn zeta in N, R'.
  rewrite R in R'. inversion R'; subst vis s out; clear R'.
  set (k := fired evs init) in *. clearbody k.
  destruct (guard ev (state_at k)) eqn:G.
  2:{ rewrite (notify_guard_false _ _ G) in E. inversion E; subst.
      destruct L. }
  destruct (notify_state_at k ev N G) as (_ & o' & E' & C).
  rewrite E in E'. inversion E'; subst s' o'; clear E'.
  specialize (C (global_position (snd ev)) (fun _ => eq_refl)).
  destruct k as [|[|[|[|[|[|[|[|[|[|k]]]]]]]]]]; try lia;
    cbn in C; first [subst o | inversion C; subst o; clear C];
    try (cbn in L; repeat destruct L as [L|L]; try discriminate L;
         contradiction).
  clear L. destruct ev as [m env]. unfold guard in G.
  cbn [fst snd state_at flight_state all_waypoints truthy] in *.
  destruct m; try discriminate G.
  apply andb_true_iff in G. destruct G as [P V].
  apply position_reached_iff in P.
  cbn [state_at target_position v0 v1 v2] in P.
  cbn [orb] in V. apply Qlt_bool_iff in V.
  destruct P as (P0 & P1 & P2).
  assert (E0 : forall x, x - 0 == x) by (intros; ring).
  rewrite E0 in P0, P1.
  repeat split; trivial.
Qed.

Lemma land_only_above_start_witness :
  fst (LOCAL_POSITION, snapshot 0 0 (-3)) = LOCAL_POSITION
  /\ state_at 6 = state_at 6 /\ state_at 7 = state_at 7
  /\ [land] = [land]
  /\ firstn 8 (mission_commands (home_of (firstn 6 mission_events)))
     = firstn 8 (mission_commands (home_of (firstn 6 mission_events)))
  /\ Qabs (v0 (local_position (snapshot 0 0 (-3)))) <= 1 # 4
  /\ Qabs (v1 (local_position (snapshot 0 0 (-3)))) <= 1 # 4
  /\ Qabs (- v2 (local_position (snapshot 0 0 (-3))) - 3) <= 1 # 4
  /\ norm_sq_01 (local_velocity (snapshot 0 0 (-3))) < 1.
Proof.
  apply (land_only_above_start (firstn 6 mission_events)
           (LOCAL_POSITION, snapshot 0 0 (-3))
           [MANUAL; ARMING; TAKEOFF; WAYPOINT; WAYPOINT; WAYPOINT; WAYPOINT]
           (state_at 6) (state_at 7)
           (firstn 8 (mission_commands (home_of (firstn 6 mission_events))))
           [land]).
  - reflexivity.
  - reflexivity.
  - left. reflexivity.
Defined.

(** ** A telemetry event is not counted twice *)

Lemma Qabs_close_to_both (c t t' : Q) :
  Qabs (c - t) <= 1 # 4 -> Qabs (c - t') <= 1 # 4 ->
  Qabs (t - t') <= 1 # 2.
Proof.
  intros H H'. apply Qabs_Qle_condition in H, H'.
  apply Qabs_Qle_condition. split; lra.
Qed.

Lemma position_reached_both env s s' :
  position_reached env s = true -> position_reached env s' = true ->
  Qabs (v0 (target_position s) - v0 (target_position s')) <= 1 # 2
  /\ Qabs (v1 (target_position s) - v1 (target_position s')) <= 1 # 2.
Proof.
  intros H H'. apply position_reached_iff in H, H'.
  destruct H as (H0 & H1 & _), H' as (H0' & H1' & _).
  split; eapply Qabs_close_to_both; eassumption.
Qed.

(** X7.  In an execution from [init], a position or velocity event that
    has just made a transition makes none when the same event (same
    telemetry) is delivered again at once: the second delivery changes
    nothing and issues nothing.  In particular one position reading never
    consumes two waypoints. *)
Theorem position_or_velocity_event_fires_once
    (evs : list Event) (ev : Event) (visited : list States)
    (s : BackyardFlyer) (out : list Command) :
  run evs init = Returned visited s out ->
  fst ev <> STATE ->
  guard ev s = true ->
  exists s' o,
    notify ev s = Returned tt s' o
    /\ guard ev s' = false
    /\ notify ev s' = Returned tt s' [].
Proof.
  intros R K G.
  destruct (run_from_init evs) as (N & vis & R'). cbn zeta in N, R'.
  rewrite R in R'. inversion R'; subst vis s out; clear R'.
  set (k := fired evs init) in *. clearbody k.
  destruct (notify_state_at k ev N G) as (_ & o & E & _).
  exists (state_at (S k)), o. split; [exact E|].
  assert (G' : guard ev (state_at (S k)) = false).
  { destruct ev as [m env]. cbn [fst] in K. unfold guard in *.
    cbn [fst snd] in *.
    destruct k as [|[|[|[|[|[|[|[|[|[|k]]]]]]]]]]; try lia;
      cbn [state_at flight_state in_mission all_waypoints] in *;
      destruct m; try discriminate G; try contradiction; try reflexivity;
      match goal with
      | |- context [position_reached env ?b] =>
          destruct (position_reached env b) eqn:P'; [exfalso | reflexivity]
      end;
      try match type of G with
          | andb (position_reached _ _) _ = true =>
              apply andb_true_iff in G; destruct G as [G _]
          end;
      destruct (position_reached_both env _ _ G P') as [A0 A1];
      cbn in A0, A1;
      first [ apply A0; reflexivity | apply A1; reflexivity ]. }
  split; [exact G'|]. apply notify_guard_false. exact G'.
Qed.

Lemma position_or_velocity_event_fires_once_witness :
  exists s' o,
    notify (LOCAL_POSITION, snapshot 0 0 (-3)) (state_at 2)
      = Returned tt s' o
    /\ guard (LOCAL_POSITION, snapshot 0 0 (-3)) s' = false
    /\ notify (LOCAL_POSITION, snapshot 0 0 (-3)) s' = Returned tt s' [].
Proof.
  apply (position_or_velocity_event_fires_once
           (firstn 2 mission_events) (LOCAL_POSITION, snapshot 0 0 (-3))
           [MANUAL; ARMING; TAKEOFF] (state_at 2)
           (firstn 4 (mission_commands (mkVec3 0 0 0)))).
  - reflexivity.
  - discriminate.
  - reflexivity.
Defined.

(** ** The landing test is one-sided *)

(** X8.  The altitude test of [velocity_callback] compares the signed
    difference between the global altitude and the home altitude with
    0.1, without taking its magnitude: in [LANDING], whenever the global
    altitude is at or below the home altitude, however far below, and
    the magnitude of component 2 of the local position is below 0.01,
    the handler disarms. *)
Theorem velocity_callback_disarms_below_home
    (env : Telemetry) (s : BackyardFlyer) :
  flight_state s = LANDING ->
  v2 (global_position env) <= v2 (global_home env) ->
  Qabs (v2 (local_position env)) < 1 # 100 ->
  velocity_callback env s
  = Returned tt (with_flight_state s DISARMING) [disarm].
Proof.
  intros F B H. destruct s as [tp l im sz fs]. cbn in F. subst fs.
  rewrite velocity_callback_landing.
  assert (L : landed env = true).
  { apply landed_iff. split; [lra | exact H]. }
  rewrite L. reflexivity.
Qed.

Lemma velocity_callback_disarms_below_home_witness :
  velocity_callback
    (mkTelemetry (mkVec3 0 0 0) (mkVec3 0 0 0)
                 (mkVec3 0 0 (-100)) (mkVec3 0 0 0))
    landing_state
  = Returned tt (with_flight_state landing_state DISARMING) [disarm].
Proof.
  apply (velocity_callback_disarms_below_home
           (mkTelemetry (mkVec3 0 0 0) (mkVec3 0 0 0)
                        (mkVec3 0 0 (-100)) (mkVec3 0 0 0))
           landing_state); [reflexivity | discriminate | reflexivity].
Defined.

(** ** The queue is first in, first out, whatever it holds *)

Lemma last_cons_default {A} (l : list A) (a d : A) :
  last (a :: l) d = last l a.
Proof.
  revert a d. induction l as [|b l IH]; intros a d; [reflexivity|].
  change (last (a :: b :: l) d) with (last (b :: l) d).
  rewrite (IH b d), (IH b a). reflexivity.
Qed.

Lemma run_positions_in_landing (evs : list Event) tp l im sz :
  Forall (fun ev => fst ev = LOCAL_POSITION) evs ->
  exists visited,
    run evs (mkBackyardFlyer tp l im sz LANDING)
    = Returned visited (mkBackyardFlyer tp l im sz LANDING) [].
Proof.
  induction 1 as [|[m env] rest K _ IH]; cbn [run].
  - eauto.
  - cbn in K. subst m. unfold notify, callback; cbn [fst snd].
    rewrite local_position_callback_other by (cbn; discriminate).
    destruct IH as (vis & R). rewrite R. eauto.
Qed.

(** X10.  Take a controller in [WAYPOINT] with any target and any queue,
    and any stream of position events.  Afterwards the commands issued
    are [cmd_position] calls, heading 0, for the first [n] points of the
    queue in queue order; either the controller is still in [WAYPOINT]
    with the other points queued and with the last point commanded (if
    any) as target, or the whole queue has been commanded, [land] has
    followed as the last command, and the controller is in [LANDING].
    No point is skipped, repeated or reordered, and [land] never comes
    before the queue is empty. *)
Theorem queue_is_first_in_first_out (evs : list Event) :
  Forall (fun ev => fst ev = LOCAL_POSITION) evs ->
  forall tp l im sz, exists visited n,
    (n <= length l)%nat
    /\ (run evs (mkBackyardFlyer tp l im sz WAYPOINT)
        = Returned visited
            (mkBackyardFlyer (last (firstn n l) tp) (skipn n l) im sz
                             WAYPOINT)
            (map cmd_position_to (firstn n l))
        \/ (n = length l
            /\ run evs (mkBackyardFlyer tp l im sz WAYPOINT)
               = Returned visited
                   (mkBackyardFlyer (last l tp) [] im sz LANDING)
                   (map cmd_position_to l ++ [land]))).
Proof.
  induction 1 as [|[m env] rest K F IH]; intros tp l im sz.
  - exists [WAYPOINT], 0%nat. split; [lia|]. left. reflexivity.
  - cbn in K. subst m. cbn [run]. unfold notify, callback; cbn [fst snd].
    destruct (position_reached env (mkBackyardFlyer tp l im sz WAYPOINT))
      eqn:P.
    2:{ rewrite local_position_callback_not_reached by exact P.
        destruct (IH tp l im sz) as (vis & n & L & [R|[N R]]);
          rewrite R; exists (WAYPOINT :: vis), n; (split; [exact L|]);
          [left | right; split; [exact N|]]; reflexivity. }
    rewrite local_position_callback_waypoint by exact P.
    destruct l as [|w l'].
    + rewrite waypoint_transition_empty.
      destruct (norm_01_lt_1 (local_velocity env)).
      * destruct (run_positions_in_landing rest tp [] im sz F) as (vis & R).
        rewrite R. exists (WAYPOINT :: vis), 0%nat. split; [cbn; lia|].
        right. split; reflexivity.
      * destruct (IH tp [] im sz) as (vis & n & L & [R|[N R]]);
          rewrite R; exists (WAYPOINT :: vis), n; (split; [exact L|]);
          [left | right; split; [exact N|]]; reflexivity.
    + rewrite waypoint_transition_pop.
      destruct (IH w l' im sz) as (vis & n & L & [R|[N R]]);
        rewrite R; exists (WAYPOINT :: vis), (S n);
        (split; [cbn [length]; lia|]).
      * left. cbn [firstn skipn map]. rewrite last_cons_default.
        reflexivity.
      * right. split; [cbn [length]; lia|].
        rewrite last_cons_default. reflexivity.
Qed.

Lemma queue_is_first_in_first_out_witness :
  exists visited n,
    (n <= length (all_waypoints (state_at 4)))%nat
    /\ (run [(LOCAL_POSITION, snapshot 10 10 (-3))] (state_at 4)
        = Returned visited
            (mkBackyardFlyer
               (last (firstn n (all_waypoints (state_at 4)))
                     (mkVec3 10 10 3))
               (skipn n (all_waypoints (state_at 4))) true 10 WAYPOINT)
            (map cmd_position_to (firstn n (all_waypoints (state_at 4))))
        \/ (n = length (all_waypoints (state_at 4))
            /\ run [(LOCAL_POSITION, snapshot 10 10 (-3))] (state_at 4)
               = Returned visited
                   (mkBackyardFlyer
                      (last (all_waypoints (state_at 4)) (mkVec3 10 10 3))
                      [] true 10 LANDING)
                   (map cmd_position_to (all_waypoints (state_at 4))
                    ++ [land]))).
Proof.
  apply (queue_is_first_in_first_out
           [(LOCAL_POSITION, snapshot 10 10 (-3))]).
  repeat constructor.
Defined.
